(** * Runtime workload scan report: get-runtime-scan-workload-results.py

    A shallow embedding of the report script.  The script asks the list
    endpoint for the runtime scan results of the running workloads, keeps
    those that carry vulnerabilities, fetches the full scan document of
    each, flattens the documents into rows and writes them with the csv
    module.

    Values are the ones [json.loads] builds.  Number literals with a
    fraction or an exponent are not represented: a number is a Python
    [int].  Everything the script does to the outside (HTTP requests,
    sleeping, logging, the output file) goes through an explicit [world]. *)

From stdpp Require Import strings gmap.
From Stdlib Require Import ZArith List Lia.
Import ListNotations.

Local Open Scope string_scope.
Local Open Scope Z_scope.
Local Open Scope list_scope.

Set Warnings "-register-all".

(** ** Values *)

(** What [json.loads] returns.  A dict is the list of its items in
    insertion order; a lookup takes the first item with the key. *)
Inductive json : Type :=
| JNull
| JBool (b : bool)
| JInt (n : Z)
| JStr (s : string)
| JArr (items : list json)
| JObj (members : list (string * json)).

(** The exceptions the script can meet.  All of them derive from
    [Exception]; [SystemExit] does not and is an outcome of its own. *)
Inductive exn : Type :=
| KeyError (key : json)
| TypeError
| AttributeError
| JSONDecodeError
| UnicodeDecodeError
| HTTPError
| UnexpectedHTTPResponse (status : Z)
| IsADirectoryError.

(** A computation without effects: a value or a raised exception. *)
Inductive res (A : Type) : Type :=
| Ok (a : A)
| Err (e : exn).
Arguments Ok {A} a.
Arguments Err {A} e.

Definition rbind {A B : Type} (r : res A) (k : A -> res B) : res B :=
  match r with
  | Ok a => k a
  | Err e => Err e
  end.

Declare Scope py_scope.
Delimit Scope py_scope with py.
Notation "'let!' x ':=' r 'in' k" := (rbind r (fun x => k))
  (at level 10, x name, r at level 100, k at level 200) : py_scope.
Local Open Scope py_scope.

(** ** Python operations on decoded values *)

Fixpoint assoc (k : string) (members : list (string * json)) : option json :=
  match members with
  | [] => None
  | (k', v) :: rest => if String.eqb k k' then Some v else assoc k rest
  end.

(** The keys a dict holds, each once, in insertion order. *)
Fixpoint obj_keys (members : list (string * json)) (seen : list string) : list string :=
  match members with
  | [] => []
  | (k, _) :: rest =>
      if existsb (String.eqb k) seen then obj_keys rest seen
      else k :: obj_keys rest (k :: seen)
  end.

Fixpoint chars (s : string) : list string :=
  match s with
  | EmptyString => []
  | String c rest => String c EmptyString :: chars rest
  end.

(** [v[k]] with a string key. *)
Definition py_getitem (v : json) (k : string) : res json :=
  match v with
  | JObj members =>
      match assoc k members with
      | Some x => Ok x
      | None => Err (KeyError (JStr k))
      end
  | _ => Err TypeError
  end.

(** [v.get(k, default)]: only a dict has the method. *)
Definition py_get (v : json) (k : string) (default : json) : res json :=
  match v with
  | JObj members =>
      match assoc k members with
      | Some x => Ok x
      | None => Ok default
      end
  | _ => Err AttributeError
  end.

(** [for x in v]: the items of a list, the keys of a dict, the characters
    of a string. *)
Definition py_iter (v : json) : res (list json) :=
  match v with
  | JArr items => Ok items
  | JObj members => Ok (map JStr (obj_keys members []))
  | JStr s => Ok (map JStr (chars s))
  | _ => Err TypeError
  end.

(** [len(v)]. *)
Definition py_len (v : json) : res nat :=
  match v with
  | JArr items => Ok (length items)
  | JObj members => Ok (length (obj_keys members []))
  | JStr s => Ok (String.length s)
  | _ => Err TypeError
  end.

Fixpoint is_prefix (p s : string) : bool :=
  match p, s with
  | EmptyString, _ => true
  | String a p', String b s' => if Ascii.eqb a b then is_prefix p' s' else false
  | String _ _, EmptyString => false
  end.

Fixpoint is_substring (p s : string) : bool :=
  if is_prefix p s then true
  else match s with
       | EmptyString => false
       | String _ s' => is_substring p s'
       end.

Definition is_str (k : string) (v : json) : bool :=
  match v with
  | JStr s => String.eqb k s
  | _ => false
  end.

(** [k in v] with a string [k]. *)
Definition py_contains (k : string) (v : json) : res bool :=
  match v with
  | JObj members => Ok (bool_decide (is_Some (assoc k members)))
  | JArr items => Ok (existsb (is_str k) items)
  | JStr s => Ok (is_substring k s)
  | _ => Err TypeError
  end.

(** [v is None]. *)
Definition is_None (v : json) : bool :=
  match v with
  | JNull => true
  | _ => false
  end.

(** [total += v] with an [int] on the left: [bool] is a subclass of [int],
    every other operand is a [TypeError]. *)
Definition py_iadd (total : Z) (v : json) : res Z :=
  match v with
  | JInt n => Ok (total + n)
  | JBool b => Ok (total + Z.b2z b)
  | _ => Err TypeError
  end.

(** *** Dicts the script builds itself, keyed by decoded values *)

Definition hashable (v : json) : bool :=
  match v with
  | JArr _ | JObj _ => false
  | _ => true
  end.

(** Equality of dict keys: [True == 1] and [False == 0]. *)
Definition key_eqb (a b : json) : bool :=
  match a, b with
  | JNull, JNull => true
  | JStr s, JStr t => String.eqb s t
  | JInt m, JInt n => Z.eqb m n
  | JInt m, JBool c => Z.eqb m (Z.b2z c)
  | JBool b, JInt n => Z.eqb (Z.b2z b) n
  | JBool b, JBool c => Bool.eqb b c
  | _, _ => false
  end.

Definition pydict : Type := list (json * json).

Fixpoint dict_find (k : json) (d : pydict) : option json :=
  match d with
  | [] => None
  | (k', v) :: rest => if key_eqb k k' then Some v else dict_find k rest
  end.

(** [k in d.keys()]: hashing an unhashable key raises. *)
Definition dict_contains (k : json) (d : pydict) : res bool :=
  if hashable k then Ok (bool_decide (is_Some (dict_find k d)))
  else Err TypeError.

(** [d[k]]. *)
Definition dict_getitem (d : pydict) (k : json) : res json :=
  if hashable k then
    match dict_find k d with
    | Some v => Ok v
    | None => Err (KeyError k)
    end
  else Err TypeError.

(** ** The vulnerability filter *)

Module Filter.

(** The body of the [for] loop of [_get_scan_results_list_with_vulnerabilties]:
    the running total of one result. *)
Definition total_vulns (result : json) : res Z :=
  let total_vulns := 0 in
  let! sev := py_getitem result "vulnTotalBySeverity" in
  let! c := py_getitem sev "critical" in
  let! total_vulns := py_iadd total_vulns c in
  let! sev := py_getitem result "vulnTotalBySeverity" in
  let! c := py_getitem sev "high" in
  let! total_vulns := py_iadd total_vulns c in
  let! sev := py_getitem result "vulnTotalBySeverity" in
  let! c := py_getitem sev "low" in
  let! total_vulns := py_iadd total_vulns c in
  let! sev := py_getitem result "vulnTotalBySeverity" in
  let! c := py_getitem sev "medium" in
  let! total_vulns := py_iadd total_vulns c in
  let! sev := py_getitem result "vulnTotalBySeverity" in
  let! c := py_getitem sev "negligible" in
  let! total_vulns := py_iadd total_vulns c in
  Ok total_vulns.

Fixpoint filter_loop (data : list json) (scan_results_list_with_vulns : list json)
  : res (list json) :=
  match data with
  | [] => Ok scan_results_list_with_vulns
  | result :: rest =>
      let! total := total_vulns result in
      if 0 <? total
      then filter_loop rest (scan_results_list_with_vulns ++ [result])
      else filter_loop rest scan_results_list_with_vulns
  end.

Definition _get_scan_results_list_with_vulnerabilties (scan_results_list : json)
  : res (list json) :=
  let scan_results_list_with_vulns := [] in
  let! data := py_getitem scan_results_list "data" in
  let! data := py_iter data in
  filter_loop data scan_results_list_with_vulns.

End Filter.

(** ** The world the script runs in *)

(** The two URLs the script formats; the holes of the f-strings are kept
    as the values that fill them. *)
Inductive url : Type :=
| RuntimeResultsUrl (secure_url_authority : string) (cursor : json)
| ResultUrl (secure_url_authority : string) (resultId : json).

(** A decoded body as [json.loads] sees it: [None] is text that is not JSON. *)
Definition text : Type := option json.

(** One round trip of [http_client.request].  [data] is [None] when the
    bytes do not decode. *)
Inductive exchange : Type :=
| Response (status : Z) (data : option text)
| Failure.

Inductive level : Type := DEBUG | INFO | WARNING | ERROR | CRITICAL.

(** One constructor per logging call of the script, with the values its
    f-string prints. *)
Inductive message : Type :=
| MsgFileExists (csv_file_name : string)
| MsgRetrievingList
| MsgFoundTotal (n : nat)
| MsgNoScanResults
| MsgRetrievingWithVulns
| MsgFoundWithVulns (n : nat)
| MsgFoundWithoutVulns (n : Z)
| MsgRetrievingFull
| MsgElapsed
| MsgComplete
| MsgException (e : exn)
| MsgFailed
| MsgBlankPullString (result_id : json)
| MsgSending (u : url)
| MsgStatus (status : Z)
| MsgData (data : text)
| MsgSleeping
| MsgRetrying
| MsgErrorRequesting (u : url).

(** A row handed to the csv writer: its cells, not yet turned into text. *)
Definition row : Type := list json.

Inductive node : Type :=
| RegularFile (rows : list row)
| Directory.

Record world : Type := World {
  script : list exchange;          (* what the server answers, in order *)
  requests : list url;             (* the GETs sent so far *)
  slept : list Z;                  (* the [time.sleep] calls, in seconds *)
  authorization : option string;   (* [http_client.headers["Authorization"]] *)
  log : list (level * message);    (* the records the logger emitted *)
  files : gmap string node         (* the file system *)
}.

Definition set_script (sc : list exchange) (w : world) : world :=
  World sc (requests w) (slept w) (authorization w) (log w) (files w).
Definition add_request (u : url) (w : world) : world :=
  World (script w) (requests w ++ [u]) (slept w) (authorization w) (log w) (files w).
Definition add_sleep (s : Z) (w : world) : world :=
  World (script w) (requests w) (slept w ++ [s]) (authorization w) (log w) (files w).
Definition set_authorization (h : string) (w : world) : world :=
  World (script w) (requests w) (slept w) (Some h) (log w) (files w).
Definition add_log (r : level * message) (w : world) : world :=
  World (script w) (requests w) (slept w) (authorization w) (log w ++ [r]) (files w).
Definition set_files (fs : gmap string node) (w : world) : world :=
  World (script w) (requests w) (slept w) (authorization w) (log w) fs.

(** How a call ends: it returns, it raises an [Exception], it raises
    [SystemExit], or it waits for an answer that never comes. *)
Inductive outcome (A : Type) : Type :=
| Ret (a : A)
| Raise (e : exn)
| SysExit (code : option Z)
| Blocked.
Arguments Ret {A} a.
Arguments Raise {A} e.
Arguments SysExit {A} code.
Arguments Blocked {A}.

Definition M (A : Type) : Type := world -> outcome A * world.

Definition ret {A : Type} (a : A) : M A := fun w => (Ret a, w).

Definition bind {A B : Type} (m : M A) (k : A -> M B) : M B :=
  fun w =>
    match m w with
    | (Ret a, w') => k a w'
    | (Raise e, w') => (Raise e, w')
    | (SysExit c, w') => (SysExit c, w')
    | (Blocked, w') => (Blocked, w')
    end.

Notation "x <- m ;; k" := (bind m (fun x => k))
  (at level 20, m at level 99, k at level 200, only parsing) : py_scope.
Notation "m ;; k" := (bind m (fun _ => k))
  (at level 100, k at level 200, only parsing, right associativity) : py_scope.

Definition lift {A : Type} (r : res A) : M A :=
  fun w =>
    match r with
    | Ok a => (Ret a, w)
    | Err e => (Raise e, w)
    end.

Definition raise {A : Type} (e : exn) : M A := fun w => (Raise e, w).

(** [raise SystemExit(code)]; [raise SystemExit()] has the code [None]. *)
Definition raise_SystemExit {A : Type} (code : option Z) : M A :=
  fun w => (SysExit code, w).

(** [try: m  except Exception as e: h e].  [SystemExit] derives from
    [BaseException] only and passes through. *)
Definition try_except {A : Type} (m : M A) (h : exn -> M A) : M A :=
  fun w =>
    match m w with
    | (Raise e, w') => h e w'
    | other => other
    end.

(** [basicConfig(level=logging.INFO)]: debug records are dropped. *)
Definition enabled (l : level) : bool :=
  match l with
  | DEBUG => false
  | _ => true
  end.

Definition LOG (l : level) (m : message) : M unit :=
  fun w => (Ret tt, if enabled l then add_log (l, m) w else w).

Definition json_loads (response_data : text) : res json :=
  match response_data with
  | Some doc => Ok doc
  | None => Err JSONDecodeError
  end.

(** ** HTTP retrieval *)

Module Http.

(** [http_client.request(method="GET", url=url, redirect=True)] followed by
    [response.data.decode()]. *)
Definition request_and_decode (u : url) : M (Z * text) :=
  fun w =>
    let w := add_request u w in
    match script w with
    | [] => (Blocked, w)
    | ex :: sc =>
        let w' := set_script sc w in
        match ex with
        | Failure => (Raise HTTPError, w')
        | Response status None => (Raise UnicodeDecodeError, w')
        | Response status (Some response_data) => (Ret (status, response_data), w')
        end
    end.

Definition sleep (seconds : Z) : M unit := fun w => (Ret tt, add_sleep seconds w).

(** The [while True] of [_get_data_from_http_request]. *)
Fixpoint request_loop (fuel : nat) (u : url) : M text :=
  match fuel with
  | O => fun w => (Blocked, w)
  | S fuel' =>
      LOG DEBUG (MsgSending u);;
      r <- request_and_decode u;;
      let '(status, response_data) := r in
      LOG DEBUG (MsgStatus status);;
      if status =? 200 then ret response_data
      else if status =? 429 then
        LOG DEBUG (MsgData response_data);;
        LOG DEBUG MsgSleeping;;
        sleep 60;;
        LOG DEBUG MsgRetrying;;
        request_loop fuel' u
      else raise (UnexpectedHTTPResponse status)
  end.

(** Every turn of the loop takes one answer off the script, so one turn
    more than the script is long is as good as [while True]. *)
Definition _get_data_from_http_request (u : url) : M text :=
  fun w =>
    try_except (request_loop (S (length (script w))) u)
      (fun e =>
         LOG CRITICAL (MsgException e);;
         LOG CRITICAL (MsgErrorRequesting u);;
         raise_SystemExit None) w.

End Http.

(** ** Pagination *)

Module Paginate.

Fixpoint list_loop (fuel : nat) (secure_url_authority : string) (cursor : json)
  : M json :=
  match fuel with
  | O => fun w => (Blocked, w)
  | S fuel' =>
      let api_url := RuntimeResultsUrl secure_url_authority cursor in
      response_data <- Http._get_data_from_http_request api_url;;
      json_response <- lift (json_loads response_data);;
      page <- lift (py_getitem json_response "page");;
      has_next <- lift (py_contains "next" page);;
      if has_next : bool then
        page <- lift (py_getitem json_response "page");;
        cursor <- lift (py_getitem page "next");;
        list_loop fuel' secure_url_authority cursor
      else ret json_response
  end.

(** Every turn sends at least one request, hence the fuel. *)
Definition _get_runtime_workload_scan_results_list (secure_url_authority : string)
  : M json :=
  fun w =>
    let cursor := JStr "" in
    list_loop (S (length (script w))) secure_url_authority cursor w.

End Paginate.

(** ** Detail fetch *)

Module Detail.

Fixpoint images_loop (secure_url_authority : string) (results : list json)
    (images_with_vulns_scan_results : pydict) : M pydict :=
  match results with
  | [] => ret images_with_vulns_scan_results
  | result :: rest =>
      resultId <- lift (py_getitem result "resultId");;
      present <- lift (dict_contains resultId images_with_vulns_scan_results);;
      if present : bool then
        images_loop secure_url_authority rest images_with_vulns_scan_results
      else
        response_data <-
          Http._get_data_from_http_request (ResultUrl secure_url_authority resultId);;
        json_response <- lift (json_loads response_data);;
        images_loop secure_url_authority rest
          (images_with_vulns_scan_results ++ [(resultId, json_response)])
  end.

Definition _get_images_with_vulns_scan_results (secure_url_authority : string)
    (scan_results_list_with_vulns : list json) : M pydict :=
  images_loop secure_url_authority scan_results_list_with_vulns [].

End Detail.

(** ** Report flattening *)

Module Flatten.

Definition report_headers : row :=
  [ JStr "Vulnerability ID"; JStr "Severity"; JStr "Package name";
    JStr "Package version"; JStr "Package type"; JStr "Package path";
    JStr "Image"; JStr "OS Name"; JStr "CVSS version"; JStr "CVSS score";
    JStr "CVSS vector"; JStr "Vuln link"; JStr "Vuln Publish date";
    JStr "Vuln Fix date"; JStr "Fix version"; JStr "Public Exploit";
    JStr "K8S cluster name"; JStr "K8S namespace name"; JStr "K8S workload type";
    JStr "K8S workload name"; JStr "K8S container name"; JStr "Image ID";
    JStr "K8S POD count"; JStr "Package suggested fix"; JStr "In use";
    JStr "Risk accepted" ].

(** The locals the outer loop binds for one result. *)
Record result_locals : Type := ResultLocals {
  result_id : json;
  kubernetes_cluster_name : json;
  kubernetes_namespace_name : json;
  kubernetes_pod_container_name : json;
  kubernetes_workload_name : json;
  kubernetes_workload_type : json;
  image_pull_string : json;
  image_id : json;
  base_os : json
}.

(** The locals the package loop binds for one package. *)
Record package_locals : Type := PackageLocals {
  package_type : json;
  package_name : json;
  package_version : json;
  package_path : json;
  package_suggested_fix : json;
  package_in_use : json
}.

Definition severity_default : json :=
  JObj [("value", JStr ""); ("sourceName", JStr "")].
Definition cvss_value_default : json :=
  JObj [("version", JStr ""); ("score", JStr ""); ("vector", JStr "")].
Definition cvss_default : json :=
  JObj [("value", cvss_value_default); ("sourceName", JStr "")].

(** The body of [for vuln in package.get("vulns",{})]: the row of one
    vulnerability. *)
Definition report_row (rl : result_locals) (pl : package_locals) (vuln : json)
  : res row :=
  let! vuln_name := py_get vuln "name" (JStr "") in
  let! vuln_severity := py_get vuln "severity" severity_default in
  let! vuln_severity_value := py_getitem vuln_severity "value" in
  let! vuln_severity_source := py_getitem vuln_severity "sourceName" in
  let! vuln_cvss_score := py_get vuln "cvssScore" cvss_default in
  let! vuln_cvss_score_value := py_get vuln_cvss_score "value" cvss_value_default in
  let! vuln_cvss_score_value_version := py_getitem vuln_cvss_score_value "version" in
  let! vuln_cvss_score_value_score := py_getitem vuln_cvss_score_value "score" in
  let! vuln_cvss_score_value_vector := py_getitem vuln_cvss_score_value "vector" in
  let! vuln_cvss_score_source := py_getitem vuln_cvss_score "sourceName" in
  let! vuln_disclosure_date := py_getitem vuln "disclosureDate" in
  let! vuln_solution_date := py_get vuln "solutionDate" (JStr "") in
  let! vuln_exploitable := py_getitem vuln "exploitable" in
  let! vuln_fixed_in_version := py_get vuln "fixedInVersion" (JStr "") in
  Ok [ vuln_name;
       vuln_severity_value;
       package_name pl;
       package_version pl;
       package_type pl;
       package_path pl;
       image_pull_string rl;
       base_os rl;
       vuln_cvss_score_value_version;
       vuln_cvss_score_value_score;
       vuln_cvss_score_value_vector;
       JStr "TODO";
       vuln_disclosure_date;
       vuln_solution_date;
       vuln_fixed_in_version;
       vuln_exploitable;
       kubernetes_cluster_name rl;
       kubernetes_namespace_name rl;
       kubernetes_workload_name rl;
       kubernetes_workload_type rl;
       kubernetes_pod_container_name rl;
       image_id rl;
       JStr "TODO";
       package_suggested_fix pl;
       package_in_use pl;
       JStr "TODO" ].

Fixpoint vuln_loop (rl : result_locals) (pl : package_locals) (vulns : list json)
    (report_data : list row) : res (list row) :=
  match vulns with
  | [] => Ok report_data
  | vuln :: rest =>
      let! report_row := report_row rl pl vuln in
      vuln_loop rl pl rest (report_data ++ [report_row])
  end.

(** The body of [for package in ...]. *)
Definition package_body (rl : result_locals) (package : json)
    (report_data : list row) : res (list row) :=
  let! vulns := py_get package "vulns" JNull in
  if is_None vulns then Ok report_data
  else
    let! package_type := py_get package "type" (JStr "") in
    let! package_name := py_get package "name" (JStr "") in
    let! package_version := py_get package "version" (JStr "") in
    let! package_path := py_get package "path" (JStr "") in
    let! package_suggested_fix := py_get package "suggestedFix" (JStr "") in
    let! package_in_use := py_get package "inUse" (JStr "") in
    let pl := PackageLocals package_type package_name package_version
                package_path package_suggested_fix package_in_use in
    let! vulns := py_get package "vulns" (JObj []) in
    let! vulns := py_iter vulns in
    vuln_loop rl pl vulns report_data.

Fixpoint package_loop (rl : result_locals) (packages : list json)
    (report_data : list row) : res (list row) :=
  match packages with
  | [] => Ok report_data
  | package :: rest =>
      let! report_data := package_body rl package report_data in
      package_loop rl rest report_data
  end.

(** [images_with_vulns_scan_results[result_id]["result"]]. *)
Definition scan_result_of (images_with_vulns_scan_results : pydict) (result_id : json)
  : res json :=
  let! entry := dict_getitem images_with_vulns_scan_results result_id in
  py_getitem entry "result".

Definition metadata_of (images_with_vulns_scan_results : pydict) (result_id : json)
  : res json :=
  let! r := scan_result_of images_with_vulns_scan_results result_id in
  py_getitem r "metadata".

Definition scope_of (result : json) (k : string) : res json :=
  let! scope := py_getitem result "scope" in
  py_getitem scope k.

(** The body of [for result in scan_results_list_with_vulns]. *)
Definition result_body (images_with_vulns_scan_results : pydict) (result : json)
    (report_data : list row) : M (list row) :=
  result_id <- lift (py_getitem result "resultId");;
  kubernetes_cluster_name <- lift (scope_of result "kubernetes.cluster.name");;
  kubernetes_namespace_name <- lift (scope_of result "kubernetes.namespace.name");;
  kubernetes_pod_container_name <-
    lift (scope_of result "kubernetes.pod.container.name");;
  kubernetes_workload_name <- lift (scope_of result "kubernetes.workload.name");;
  kubernetes_workload_type <- lift (scope_of result "kubernetes.workload.type");;
  image_pull_string <-
    lift (let! md := metadata_of images_with_vulns_scan_results result_id in
          py_get md "pullString" JNull);;
  if is_str "" image_pull_string then
    LOG WARNING (MsgBlankPullString result_id);;
    ret report_data
  else
    image_id <-
      lift (let! md := metadata_of images_with_vulns_scan_results result_id in
            py_getitem md "imageId");;
    base_os <-
      lift (let! md := metadata_of images_with_vulns_scan_results result_id in
            py_getitem md "baseOs");;
    let rl := ResultLocals result_id kubernetes_cluster_name
                kubernetes_namespace_name kubernetes_pod_container_name
                kubernetes_workload_name kubernetes_workload_type
                image_pull_string image_id base_os in
    packages <-
      lift (let! r := scan_result_of images_with_vulns_scan_results result_id in
            let! packages := py_get r "packages" (JObj []) in
            py_iter packages);;
    lift (package_loop rl packages report_data).

Fixpoint result_loop (images_with_vulns_scan_results : pydict) (results : list json)
    (report_data : list row) : M (list row) :=
  match results with
  | [] => ret report_data
  | result :: rest =>
      report_data <- result_body images_with_vulns_scan_results result report_data;;
      result_loop images_with_vulns_scan_results rest report_data
  end.

(** [report] receives the headers and is then left alone: what the
    function returns is [report_data]. *)
Definition _gather_report_data (scan_results_list_with_vulns : list json)
    (images_with_vulns_scan_results : pydict) : M (list row) :=
  let report := [] in
  let report := report ++ [report_headers] in
  let report_data := [] in
  report_data <-
    result_loop images_with_vulns_scan_results scan_results_list_with_vulns report_data;;
  ret report_data.

End Flatten.

(** ** The script *)

Record args : Type := Args {
  secure_url_authority : string;
  api_token : string;
  csv_file_name : string
}.

(** [os.path.isfile]: a directory is not a file. *)
Definition isfile (path : string) : M bool :=
  fun w =>
    (Ret match files w !! path with
         | Some (RegularFile _) => true
         | _ => false
         end, w).

(** [open(path, 'w')]: the file is created or emptied. *)
Definition open_w (path : string) : M unit :=
  fun w =>
    match files w !! path with
    | Some Directory => (Raise IsADirectoryError, w)
    | _ => (Ret tt, set_files (<[path := RegularFile []]> (files w)) w)
    end.

(** [csv.writer(f).writerows(rows)] on the file opened at [path]. *)
Definition writerows (path : string) (rows : list row) : M unit :=
  fun w =>
    match files w !! path with
    | Some (RegularFile old) =>
        (Ret tt, set_files (<[path := RegularFile (old ++ rows)]> (files w)) w)
    | _ => (Ret tt, w)
    end.

Definition set_header (h : string) : M unit :=
  fun w => (Ret tt, set_authorization h w).

Definition data_len (scan_results_list : json) : res nat :=
  let! data := py_getitem scan_results_list "data" in
  py_len data.

Definition main (a : args) : M unit :=
  try_except
    (let secure_url_authority := secure_url_authority a in
     let authentication_bearer := api_token a in
     let csv_file_name := csv_file_name a in
     is_file <- isfile csv_file_name;;
     (if is_file : bool then
        LOG ERROR (MsgFileExists csv_file_name);;
        raise_SystemExit (Some (-1))
      else ret tt);;
     set_header ("Bearer " +:+ authentication_bearer);;
     LOG INFO MsgRetrievingList;;
     scan_results_list <-
       Paginate._get_runtime_workload_scan_results_list secure_url_authority;;
     n <- lift (data_len scan_results_list);;
     LOG INFO (MsgFoundTotal n);;
     n <- lift (data_len scan_results_list);;
     (if Nat.eqb n 0 then LOG INFO MsgNoScanResults
      else
        LOG INFO MsgRetrievingWithVulns;;
        scan_results_list_with_vulns <-
          lift (Filter._get_scan_results_list_with_vulnerabilties scan_results_list);;
        LOG INFO (MsgFoundWithVulns (length scan_results_list_with_vulns));;
        n <- lift (data_len scan_results_list);;
        LOG INFO (MsgFoundWithoutVulns
                    (Z.of_nat n - Z.of_nat (length scan_results_list_with_vulns)));;
        LOG INFO MsgRetrievingFull;;
        images_with_vulns_scan_results <-
          Detail._get_images_with_vulns_scan_results secure_url_authority
            scan_results_list_with_vulns;;
        report_data <-
          Flatten._gather_report_data scan_results_list_with_vulns
            images_with_vulns_scan_results;;
        open_w csv_file_name;;
        writerows csv_file_name report_data);;
     LOG INFO MsgElapsed;;
     LOG INFO MsgComplete)
    (fun e =>
       LOG CRITICAL (MsgException e);;
       LOG ERROR MsgFailed;;
       raise_SystemExit (Some (-1))).

(** How the process ends. *)
Inductive termination : Type :=
| Exited (status : Z)
| Hangs.

(** The status the shell sees for a [SystemExit] code: [None] is success,
    an integer is cut to one byte. *)
Definition exit_status (code : option Z) : Z :=
  match code with
  | None => 0
  | Some n => Z.land n 255
  end.

(** [sys.exit(main())]: [main] returns [None]. *)
Definition run (a : args) (w : world) : termination * world :=
  match main a w with
  | (Ret _, w') => (Exited (exit_status None), w')
  | (SysExit code, w') => (Exited (exit_status code), w')
  | (Raise _, w') => (Exited 1, w')
  | (Blocked, w') => (Hangs, w')
  end.

(** ** Vocabulary of the statements *)

(** One severity bucket of a scan result, read the way the data model
    describes it: an integer total under [vulnTotalBySeverity]. *)
Definition bucket (result : json) (name : string) : option Z :=
  match result with
  | JObj members =>
      match assoc "vulnTotalBySeverity" members with
      | Some (JObj totals) =>
          match assoc name totals with
          | Some (JInt n) => Some n
          | _ => None
          end
      | _ => None
      end
  | _ => None
  end.

(** The sum of the five severity buckets of a scan result. *)
Definition bucket_sum (result : json) : option Z :=
  match bucket result "critical", bucket result "high", bucket result "low",
        bucket result "medium", bucket result "negligible" with
  | Some c, Some h, Some l, Some m, Some n => Some (c + h + l + m + n)
  | _, _, _, _, _ => None
  end.

(** A scan result: a document that carries the five totals. *)
Definition is_scan_result (result : json) : Prop := is_Some (bucket_sum result).

(** The criterion of the filter: the sum is strictly positive. *)
Definition has_vulnerabilities (result : json) : bool :=
  match bucket_sum result with
  | Some s => 0 <? s
  | None => false
  end.

(** A 200 answer carrying a JSON document. *)
Definition ok (doc : json) : exchange := Response 200 (Some (Some doc)).

(** The page metadata of a list-endpoint response. *)
Definition page_meta (doc : json) : option (list (string * json)) :=
  match doc with
  | JObj members =>
      match assoc "page" members with
      | Some (JObj meta) => Some meta
      | _ => None
      end
  | _ => None
  end.

(** The [next] cursor of a response, when its page metadata has one. *)
Definition next_cursor (doc : json) : option json :=
  match page_meta doc with
  | Some meta => assoc "next" meta
  | None => None
  end.

Definition has_next (doc : json) : Prop := is_Some (next_cursor doc).

Definition no_next (doc : json) : Prop :=
  exists meta, page_meta doc = Some meta /\ assoc "next" meta = None.

Definition next_of (doc : json) : json := default JNull (next_cursor doc).

Definition is_list_request (u : url) : Prop :=
  match u with
  | RuntimeResultsUrl _ _ => True
  | ResultUrl _ _ => False
  end.

(** The world [main] hands to the paginator: the header is set and the
    first progress line is logged. *)
Definition started (a : args) (w : world) : world :=
  add_log (INFO, MsgRetrievingList)
    (set_authorization ("Bearer " +:+ api_token a) w).

(** The world after the requests [us] were answered, with [sc] left of
    the script and nothing else touched. *)
Definition after_requests (us : list url) (sc : list exchange) (w : world) : world :=
  World sc (requests w ++ us) (slept w) (authorization w) (log w) (files w).

(** *** Scan documents *)

Definition member (k : string) (v : json) : option json :=
  match v with
  | JObj members => assoc k members
  | _ => None
  end.

(** The object [v] has no member [k]. *)
Definition absent (k : string) (v : json) : Prop :=
  exists members, v = JObj members /\ assoc k members = None.

Definition has_keys (ks : list string) (v : json) : bool :=
  match v with
  | JObj members => forallb (fun k => bool_decide (is_Some (assoc k members))) ks
  | _ => false
  end.

(** The member [k] of [v], when there is one, satisfies [p]. *)
Definition optional (k : string) (p : json -> bool) (v : json) : bool :=
  match member k v with
  | Some x => p x
  | None => true
  end.

(** A CVSS object: it names its source, and its value, when given, has a
    version, a score and a vector. *)
Definition wf_cvss (cvss : json) : bool :=
  has_keys ["sourceName"] cvss
  && optional "value" (has_keys ["version"; "score"; "vector"]) cvss.

(** A vulnerability record: the disclosure date and the exploitable flag
    are there; a severity object, when given, has a value and a source; a
    CVSS object, when given, is well formed. *)
Definition wf_vuln (vuln : json) : bool :=
  has_keys ["disclosureDate"; "exploitable"] vuln
  && optional "severity" (has_keys ["value"; "sourceName"]) vuln
  && optional "cvssScore" wf_cvss vuln.

(** The vulnerability entries of a package. *)
Definition vulns_of (package : json) : list json :=
  match member "vulns" package with
  | Some (JArr vulns) => vulns
  | _ => []
  end.

(** A package record: an object whose [vulns], when given, is null or a
    list of vulnerability records. *)
Definition wf_package (package : json) : bool :=
  match package with
  | JObj members =>
      match assoc "vulns" members with
      | None | Some JNull => true
      | Some (JArr vulns) => forallb wf_vuln vulns
      | Some _ => false
      end
  | _ => false
  end.

Definition metadata (detail : json) : option json :=
  match member "result" detail with
  | Some r => member "metadata" r
  | None => None
  end.

(** The image pull string of a detail document. *)
Definition pull_string (detail : json) : option json :=
  match metadata detail with
  | Some md => member "pullString" md
  | None => None
  end.

Definition packages_of (detail : json) : list json :=
  match member "result" detail with
  | Some r =>
      match member "packages" r with
      | Some (JArr packages) => packages
      | _ => []
      end
  | None => []
  end.

(** A detail document: image metadata with an id and a base OS, and a
    list of package records when packages are given. *)
Definition wf_detail (detail : json) : bool :=
  match member "result" detail with
  | Some r =>
      match member "metadata" r with
      | Some md => has_keys ["imageId"; "baseOs"] md
      | None => false
      end
      && match member "packages" r with
         | None => true
         | Some (JArr packages) => forallb wf_package packages
         | Some _ => false
         end
  | None => false
  end.

(** A list entry the flattener can read: a result id and the five scope
    names. *)
Definition scope_names : list string :=
  [ "kubernetes.cluster.name"; "kubernetes.namespace.name";
    "kubernetes.pod.container.name"; "kubernetes.workload.name";
    "kubernetes.workload.type" ].

Definition has_scope (result : json) : bool :=
  match member "scope" result with
  | Some scope => has_keys scope_names scope
  | None => false
  end.

(** The rows a result is due: the sum, over its packages with at least one
    vulnerability entry, of the number of entries. *)
Definition vulnerability_count (detail : json) : nat :=
  list_sum
    (map (fun package => length (vulns_of package))
       (List.filter (fun package => (1 <=? length (vulns_of package))%nat)
          (packages_of detail))).

(** *** Report columns *)

Fixpoint column_of (headers cells : list json) (name : string) : option json :=
  match headers, cells with
  | h :: headers', c :: cells' =>
      if is_str name h then Some c else column_of headers' cells' name
  | _, _ => None
  end.

(** The cell of a row under the header [name]. *)
Definition column (name : string) (r : row) : option json :=
  column_of Flatten.report_headers r name.

Definition blank_in (r : row) (names : list string) : Prop :=
  Forall (fun name => column name r = Some (JStr "")) names.

Definition cvss_columns : list string := ["CVSS version"; "CVSS score"; "CVSS vector"].

(** Optional members of a vulnerability record and the columns they feed. *)
Definition vuln_defaults : list (string * list string) :=
  [ ("severity", ["Severity"]);
    ("cvssScore", cvss_columns);
    ("solutionDate", ["Vuln Fix date"]);
    ("fixedInVersion", ["Fix version"]) ].

(** Optional members of a package record and the columns they feed. *)
Definition package_defaults : list (string * list string) :=
  [ ("name", ["Package name"]);
    ("version", ["Package version"]);
    ("type", ["Package type"]);
    ("path", ["Package path"]);
    ("suggestedFix", ["Package suggested fix"]);
    ("inUse", ["In use"]) ].

(** Every optional member that is missing as a whole leaves its columns
    blank in the row [r] of [vuln] in [package]. *)
Definition defaults_hold (package vuln : json) (r : row) : Prop :=
  Forall (fun d => absent (fst d) vuln -> blank_in r (snd d)) vuln_defaults /\
  Forall (fun d => absent (fst d) package -> blank_in r (snd d)) package_defaults /\
  (forall cvss, member "cvssScore" vuln = Some cvss -> absent "value" cvss ->
                blank_in r cvss_columns).

(** *** Predicates of the proofs *)

(** The test of the filter loop, on the total the code computes. *)
Definition passes (result : json) : Prop :=
  exists total, Filter.total_vulns result = Ok total /\ 0 < total.

(** What a call leaves alone, and what it may add. *)
Record extends (w w' : world) (allowed : url -> Prop) : Prop := Extends {
  ext_files : files w' = files w;
  ext_authorization : authorization w' = authorization w;
  ext_requests : exists us, requests w' = requests w ++ us /\ Forall allowed us;
  ext_script : exists used, script w = used ++ script w'
}.

(** What the row of a well-formed vulnerability holds. *)
Definition row_facts (pl : Flatten.package_locals) (vuln : json) (r : row) : Prop :=
  column "Package name" r = Some (Flatten.package_name pl) /\
  column "Package version" r = Some (Flatten.package_version pl) /\
  column "Package type" r = Some (Flatten.package_type pl) /\
  column "Package path" r = Some (Flatten.package_path pl) /\
  column "Package suggested fix" r = Some (Flatten.package_suggested_fix pl) /\
  column "In use" r = Some (Flatten.package_in_use pl) /\
  Forall (fun d => absent (fst d) vuln -> blank_in r (snd d)) vuln_defaults /\
  (forall cvss, member "cvssScore" vuln = Some cvss -> absent "value" cvss ->
                blank_in r cvss_columns).

(** Split a [Forall] over a list that is written out. *)
Ltac split_list :=
  repeat first [apply List.Forall_nil | apply List.Forall_cons].

(** *** Effects of a call *)

Definition list_request_to (authority : string) (u : url) : Prop :=
  exists cursor, u = RuntimeResultsUrl authority cursor.

Definition detail_request_to (authority : string) (u : url) : Prop :=
  exists resultId, u = ResultUrl authority resultId.

(** A call that touches the world through the network only: it sends
    requests that [allowed] admits, reads answers off the script, may log,
    leaves the files and the header alone, and when it ends the process it
    does so with [SystemExit()]. *)
Definition network_only {A : Type} (allowed : url -> Prop) (m : M A) : Prop :=
  forall w o w',
    m w = (o, w') ->
    extends w w' allowed /\ (forall code, o = SysExit code -> code = None).

(** The world after [n] throttled attempts at [u] and the one that got
    through. *)
Definition after_retries (u : url) (n : nat) (sc : list exchange) (w : world) : world :=
  World sc (requests w ++ repeat u (S n)) (slept w ++ repeat 60 n)
    (authorization w) (log w) (files w).

(** An answer that makes the script wait: status 429 with a body that
    decodes. *)
Definition throttled (body : text) : exchange := Response 429 (Some body).

(** *** Result ids *)

(** The ids of a list in the order of their first appearance, none of
    them equal, as dict keys compare, to one in [seen] or to an earlier one. *)
Fixpoint distinct (ids seen : list json) : list json :=
  match ids with
  | [] => []
  | id :: rest =>
      if existsb (key_eqb id) seen then distinct rest seen
      else id :: distinct rest (seen ++ [id])
  end.

(** [result] carries the result id [id]. *)
Definition has_id (result id : json) : Prop := py_getitem result "resultId" = Ok id.

(** The dict [images] has a document for the id of [result]. *)
Definition covered (images : pydict) (result : json) : Prop :=
  exists id doc, has_id result id /\ dict_getitem images id = Ok doc.

(** *** Rows *)

Definition rmap {A B : Type} (f : A -> B) (r : res A) : res B :=
  match r with
  | Ok a => Ok (f a)
  | Err e => Err e
  end.

(** The same run with [f] applied to what it returns. *)
Definition omap {A B : Type} (f : A -> B) (x : outcome A * world) : outcome B * world :=
  match x with
  | (Ret a, w) => (Ret (f a), w)
  | (Raise e, w) => (Raise e, w)
  | (SysExit code, w) => (SysExit code, w)
  | (Blocked, w) => (Blocked, w)
  end.

(** The locals the flattener binds for [result] before it walks the
    packages: what it read, and that the pull string was not blank. *)
Definition reads_locals (images : pydict) (result : json)
    (rl : Flatten.result_locals) : Prop :=
  has_id result (Flatten.result_id rl) /\
  Flatten.scope_of result "kubernetes.cluster.name"
  = Ok (Flatten.kubernetes_cluster_name rl) /\
  Flatten.scope_of result "kubernetes.namespace.name"
  = Ok (Flatten.kubernetes_namespace_name rl) /\
  Flatten.scope_of result "kubernetes.pod.container.name"
  = Ok (Flatten.kubernetes_pod_container_name rl) /\
  Flatten.scope_of result "kubernetes.workload.name"
  = Ok (Flatten.kubernetes_workload_name rl) /\
  Flatten.scope_of result "kubernetes.workload.type"
  = Ok (Flatten.kubernetes_workload_type rl) /\
  (let! md := Flatten.metadata_of images (Flatten.result_id rl) in
   py_get md "pullString" JNull) = Ok (Flatten.image_pull_string rl) /\
  Flatten.image_pull_string rl <> JStr "" /\
  (let! md := Flatten.metadata_of images (Flatten.result_id rl) in
   py_getitem md "imageId") = Ok (Flatten.image_id rl) /\
  (let! md := Flatten.metadata_of images (Flatten.result_id rl) in
   py_getitem md "baseOs") = Ok (Flatten.base_os rl).

(** The row [r] was made for a vulnerability of a package of [result]. *)
Definition row_from (images : pydict) (result : json) (r : row) : Prop :=
  exists rl pl vuln,
    reads_locals images result rl /\ Flatten.report_row rl pl vuln = Ok r.

(** The cell of [r] under the header [name] is what the flattener read
    under [k] in the scope of [result]. *)
Definition scope_cell (result : json) (k : string) (r : row) (name : string) : Prop :=
  exists v, Flatten.scope_of result k = Ok v /\ column name r = Some v.

(** The cell of [r] under the header [name] is the member [k] of the image
    metadata stored for [result]. *)
Definition image_cell (images : pydict) (result : json) (k : string) (r : row)
    (name : string) : Prop :=
  exists id md v,
    has_id result id /\ Flatten.metadata_of images id = Ok md /\
    py_getitem md k = Ok v /\ column name r = Some v.

(** A call whose only effect is to log warnings, and which returns or
    raises. *)
Definition only_warns {A : Type} (m : M A) : Prop :=
  forall w o w',
    m w = (o, w') ->
    (exists lines,
       w' = World (script w) (requests w) (slept w) (authorization w)
              (log w ++ lines) (files w) /\
       Forall (fun line => fst line = WARNING) lines) /\
    match o with
    | Ret _ | Raise _ => True
    | SysExit _ | Blocked => False
    end.

(** *** What a run does *)

(** Every run of [m] takes the world to one that [R] relates to it. *)
Definition respects {A : Type} (R : world -> world -> Prop) (m : M A) : Prop :=
  forall w o w', m w = (o, w') -> R w w'.


Definition same_files (w w' : world) : Prop := files w' = files w.

(** The requests sent between [w] and [w'] all satisfy [P]. *)
Definition sent (P : url -> Prop) (w w' : world) : Prop :=
  exists us, requests w' = requests w ++ us /\ Forall P us.

(** The requests sent between [w] and [w'] are list requests followed by
    detail requests, all to [authority]. *)
Definition sent_in_phases (authority : string) (w w' : world) : Prop :=
  exists ls ds,
    requests w' = requests w ++ ls ++ ds /\
    Forall (list_request_to authority) ls /\
    Forall (detail_request_to authority) ds.




(** The world with the lines [lines] logged, one after the other. *)
Definition logged (lines : list (level * message)) (w : world) : world :=
  fold_left (fun w line => add_log line w) lines w.

(** The progress lines [main] logs between the list and the detail
    requests, for a page of [n] results of which [kept] are kept. *)
Definition progress (n : nat) (kept : list json) : list (level * message) :=
  [ (INFO, MsgFoundTotal n);
    (INFO, MsgRetrievingWithVulns);
    (INFO, MsgFoundWithVulns (length kept));
    (INFO, MsgFoundWithoutVulns (Z.of_nat n - Z.of_nat (length kept)));
    (INFO, MsgRetrievingFull) ].

(** ** Sample documents *)

Module Sample.

Definition scope : json :=
  JObj [ ("kubernetes.cluster.name", JStr "c1");
         ("kubernetes.namespace.name", JStr "ns1");
         ("kubernetes.pod.container.name", JStr "ctr");
         ("kubernetes.workload.name", JStr "web");
         ("kubernetes.workload.type", JStr "deployment") ].

Definition totals (critical : Z) : json :=
  JObj [ ("critical", JInt critical); ("high", JInt 0); ("low", JInt 0);
         ("medium", JInt 0); ("negligible", JInt 0) ].

Definition scan_result (id : string) (critical : Z) : json :=
  JObj [ ("resultId", JStr id); ("scope", scope);
         ("vulnTotalBySeverity", totals critical) ].

(** A last page: its metadata has no [next]. *)
Definition last_page (data : list json) : json :=
  JObj [ ("page", JObj [("returned", JInt (Z.of_nat (length data)))]);
         ("data", JArr data) ].

(** A page that names its successor. *)
Definition more_page (cursor : string) (data : list json) : json :=
  JObj [ ("page", JObj [ ("returned", JInt (Z.of_nat (length data)));
                         ("next", JStr cursor) ]);
         ("data", JArr data) ].

Definition vuln : json :=
  JObj [ ("name", JStr "CVE-2024-0001");
         ("severity", JObj [("value", JStr "high"); ("sourceName", JStr "nvd")]);
         ("disclosureDate", JStr "2024-01-01");
         ("exploitable", JBool false) ].

(** A vulnerability whose CVSS value carries no vector. *)
Definition vuln_no_vector : json :=
  JObj [ ("name", JStr "CVE-2024-0002");
         ("severity", JObj [("value", JStr "high"); ("sourceName", JStr "nvd")]);
         ("cvssScore", JObj [ ("value", JObj [("version", JStr "3.1"); ("score", JInt 7)]);
                              ("sourceName", JStr "nvd") ]);
         ("disclosureDate", JStr "2024-01-02");
         ("exploitable", JBool false) ].

(** A vulnerability with nothing but the two required dates and flags. *)
Definition vuln_bare : json :=
  JObj [ ("disclosureDate", JStr "2024-01-03"); ("exploitable", JBool true) ].

Definition package (vulns : list json) : json :=
  JObj [ ("name", JStr "curl"); ("version", JStr "7.0"); ("vulns", JArr vulns) ].

Definition package_bare (vulns : list json) : json :=
  JObj [ ("vulns", JArr vulns) ].

Definition package_clean : json :=
  JObj [ ("name", JStr "zlib"); ("version", JStr "1.3") ].

Definition detail (pull_string : string) (packages : list json) : json :=
  JObj [ ("result",
          JObj [ ("metadata", JObj [ ("pullString", JStr pull_string);
                                     ("imageId", JStr "sha256:0a");
                                     ("baseOs", JStr "debian 12") ]);
                 ("packages", JArr packages) ]) ].

Definition cli : args := Args "secure.example" "token" "out.csv".

(** A fresh run: nothing sent, nothing logged, an empty directory. *)
Definition fresh (sc : list exchange) : world := World sc [] [] None [] ∅.

Definition locals : Flatten.result_locals :=
  Flatten.ResultLocals (JStr "r1") (JStr "c1") (JStr "ns1") (JStr "ctr")
    (JStr "web") (JStr "deployment") (JStr "img:1") (JStr "sha256:0a")
    (JStr "debian 12").

(** The row of [vuln] in [package [vuln]] of the image [img:1]. *)
Definition row_of_vuln : row :=
  [ JStr "CVE-2024-0001"; JStr "high"; JStr "curl"; JStr "7.0"; JStr ""; JStr "";
    JStr "img:1"; JStr "debian 12"; JStr ""; JStr ""; JStr ""; JStr "TODO";
    JStr "2024-01-01"; JStr ""; JStr ""; JBool false; JStr "c1"; JStr "ns1";
    JStr "web"; JStr "deployment"; JStr "ctr"; JStr "sha256:0a"; JStr "TODO";
    JStr ""; JStr ""; JStr "TODO" ].

(** The row of [vuln_bare] in [package_bare [vuln_bare]] under [locals]. *)
Definition row_of_bare : row :=
  [ JStr ""; JStr ""; JStr ""; JStr ""; JStr ""; JStr "";
    JStr "img:1"; JStr "debian 12"; JStr ""; JStr ""; JStr ""; JStr "TODO";
    JStr "2024-01-03"; JStr ""; JStr ""; JBool true; JStr "c1"; JStr "ns1";
    JStr "web"; JStr "deployment"; JStr "ctr"; JStr "sha256:0a"; JStr "TODO";
    JStr ""; JStr ""; JStr "TODO" ].

(** Three kept results, the first and the last with the same id. *)
Definition results3 : list json :=
  [scan_result "r1" 1; scan_result "r2" 1; scan_result "r1" 2].

Definition detail1 : json := detail "img:1" [package [vuln]].
Definition detail2 : json := detail "img:2" [package_bare [vuln_bare]].

Definition images1 : pydict := [(JStr "r1", detail1)].

(** A list entry without severity totals. *)
Definition result_without_totals : json :=
  JObj [("resultId", JStr "r9"); ("scope", scope)].

(** One page with one result, then the document of its image. *)
Definition script1 : list exchange :=
  [ok (last_page [scan_result "r1" 1]); ok detail1].

(** The worlds a run on [script1] goes through. *)
Definition listed (w : world) : world :=
  after_requests [RuntimeResultsUrl "secure.example" (JStr "")] [ok detail1]
    (started cli w).

Definition fetched (w : world) : world :=
  after_requests [ResultUrl "secure.example" (JStr "r1")] []
    (logged (progress 1 [scan_result "r1" 1]) (listed w)).

End Sample.

(** ** The filter: proofs *)

Module FilterFacts.
Import Filter.

Lemma bucket_getitem result name n :
  bucket result name = Some n ->
  exists totals,
    py_getitem result "vulnTotalBySeverity" = Ok totals /\
    py_getitem totals name = Ok (JInt n).
Proof.
  unfold bucket. destruct result as [| | | | |members]; try discriminate.
  destruct (assoc "vulnTotalBySeverity" members) as [totals|] eqn:Hsev;
    try discriminate.
  destruct totals as [| | | | |tm]; try discriminate.
  destruct (assoc name tm) as [v|] eqn:Hn; try discriminate.
  destruct v; try discriminate.
  intros [= ->]. exists (JObj tm). cbn. rewrite Hsev. cbn. rewrite Hn. auto.
Qed.

Lemma total_vulns_bucket_sum result s :
  bucket_sum result = Some s -> total_vulns result = Ok s.
Proof.
  unfold bucket_sum.
  destruct (bucket result "critical") as [c|] eqn:Hc; try discriminate.
  destruct (bucket result "high") as [h|] eqn:Hh; try discriminate.
  destruct (bucket result "low") as [l|] eqn:Hl; try discriminate.
  destruct (bucket result "medium") as [m|] eqn:Hm; try discriminate.
  destruct (bucket result "negligible") as [n|] eqn:Hn; try discriminate.
  intros [= <-].
  apply bucket_getitem in Hc as (t & Ht & Hc).
  apply bucket_getitem in Hh as (t1 & Ht1 & Hh).
  apply bucket_getitem in Hl as (t2 & Ht2 & Hl).
  apply bucket_getitem in Hm as (t3 & Ht3 & Hm).
  apply bucket_getitem in Hn as (t4 & Ht4 & Hn).
  rewrite Ht in Ht1, Ht2, Ht3, Ht4.
  injection Ht1 as <-. injection Ht2 as <-. injection Ht3 as <-. injection Ht4 as <-.
  unfold total_vulns. rewrite Ht. cbn [rbind].
  rewrite Hc, Hh, Hl, Hm, Hn. cbn [rbind py_iadd]. first [reflexivity | f_equal; lia].
Qed.

Lemma filter_loop_scan_results data :
  Forall is_scan_result data ->
  forall acc, filter_loop data acc = Ok (acc ++ List.filter has_vulnerabilities data).
Proof.
  induction 1 as [|result rest [s Hs] _ IH]; intros acc; cbn [filter_loop List.filter].
  - now rewrite app_nil_r.
  - rewrite (total_vulns_bucket_sum _ _ Hs). cbn [rbind].
    unfold has_vulnerabilities. rewrite Hs.
    destruct (0 <? s); rewrite IH; [|reflexivity].
    now rewrite <- app_assoc.
Qed.

Lemma filter_loop_appends data :
  forall acc out,
    filter_loop data acc = Ok out ->
    exists kept, out = acc ++ kept /\ Forall passes kept.
Proof.
  induction data as [|result rest IH]; intros acc out; cbn [filter_loop].
  - intros [= <-]. exists []. split; [now rewrite app_nil_r | constructor].
  - destruct (total_vulns result) as [total|e] eqn:Ht; cbn [rbind]; [|discriminate].
    destruct (0 <? total) eqn:Hpos; intros Hrun.
    + apply IH in Hrun as (kept & -> & Hkept).
      exists (result :: kept). split; [now rewrite <- app_assoc|].
      constructor; [|exact Hkept]. exists total. split; [exact Ht|].
      now apply Z.ltb_lt.
    + now apply IH in Hrun.
Qed.

Lemma filter_loop_passes kept :
  Forall passes kept ->
  forall acc, filter_loop kept acc = Ok (acc ++ kept).
Proof.
  induction 1 as [|result rest (total & Ht & Hpos) _ IH]; intros acc;
    cbn [filter_loop].
  - now rewrite app_nil_r.
  - rewrite Ht. cbn [rbind].
    apply Z.ltb_lt in Hpos. rewrite Hpos, IH. now rewrite <- app_assoc.
Qed.

(** C5: on a page whose data is a list of scan results, the filter returns
    exactly the results whose five severity totals sum to more than zero,
    in their order; nothing else decides. *)
Theorem filter_keeps_positive_sum (scan_results_list : json) (data : list json) :
  py_getitem scan_results_list "data" = Ok (JArr data) ->
  Forall is_scan_result data ->
  _get_scan_results_list_with_vulnerabilties scan_results_list
  = Ok (List.filter has_vulnerabilities data).
Proof.
  intros Hdata Hwf. unfold _get_scan_results_list_with_vulnerabilties.
  rewrite Hdata. cbn [rbind py_iter].
  now rewrite (filter_loop_scan_results _ Hwf).
Qed.

(** C9: filtering is idempotent: when the filter returns [kept] for a page,
    it returns [kept] again for any page whose data is [kept]. *)
Theorem filter_idempotent (scan_results_list again : json) (kept : list json) :
  _get_scan_results_list_with_vulnerabilties scan_results_list = Ok kept ->
  py_getitem again "data" = Ok (JArr kept) ->
  _get_scan_results_list_with_vulnerabilties again = Ok kept.
Proof.
  unfold _get_scan_results_list_with_vulnerabilties. intros Hfirst Hagain.
  destruct (py_getitem scan_results_list "data") as [d|] ; [|discriminate].
  cbn [rbind] in Hfirst.
  destruct (py_iter d) as [items|]; [|discriminate].
  cbn [rbind] in Hfirst.
  apply filter_loop_appends in Hfirst as (kept' & -> & Hkept).
  rewrite Hagain. cbn [rbind py_iter app].
  now rewrite (filter_loop_passes _ Hkept).
Qed.

Lemma filter_keeps_positive_sum_witness :
  let data := [Sample.scan_result "r1" 1; Sample.scan_result "r2" 0] in
  py_getitem (Sample.last_page data) "data" = Ok (JArr data) /\
  Forall is_scan_result data /\
  _get_scan_results_list_with_vulnerabilties (Sample.last_page data)
  = Ok [Sample.scan_result "r1" 1].
Proof.
  cbv zeta. split; [reflexivity|].
  assert (Hwf : Forall is_scan_result
                  [Sample.scan_result "r1" 1; Sample.scan_result "r2" 0]).
  { repeat constructor; vm_compute; eauto. }
  split; [exact Hwf|].
  exact (filter_keeps_positive_sum
           (Sample.last_page [Sample.scan_result "r1" 1; Sample.scan_result "r2" 0])
           _ eq_refl Hwf).
Defined.

Lemma filter_idempotent_witness :
  let data := [Sample.scan_result "r1" 1; Sample.scan_result "r2" 0] in
  let kept := [Sample.scan_result "r1" 1] in
  _get_scan_results_list_with_vulnerabilties (Sample.last_page data) = Ok kept /\
  py_getitem (Sample.last_page kept) "data" = Ok (JArr kept) /\
  _get_scan_results_list_with_vulnerabilties (Sample.last_page kept) = Ok kept.
Proof.
  cbv zeta. split; [reflexivity|]. split; [reflexivity|].
  exact (filter_idempotent
           (Sample.last_page [Sample.scan_result "r1" 1; Sample.scan_result "r2" 0])
           (Sample.last_page [Sample.scan_result "r1" 1])
           [Sample.scan_result "r1" 1] eq_refl eq_refl).
Defined.

End FilterFacts.

(** ** HTTP retrieval and pagination: proofs *)

Module HttpFacts.
Import Http Paginate.

Lemma extends_refl w allowed : extends w w allowed.
Proof.
  split; try reflexivity.
  - exists []. split; [now rewrite app_nil_r | constructor].
  - now exists [].
Qed.

Lemma extends_trans w1 w2 w3 allowed :
  extends w1 w2 allowed -> extends w2 w3 allowed -> extends w1 w3 allowed.
Proof.
  intros [Hf1 Ha1 (us1 & Hr1 & Hu1) (sc1 & Hs1)] [Hf2 Ha2 (us2 & Hr2 & Hu2) (sc2 & Hs2)].
  split.
  - congruence.
  - congruence.
  - exists (us1 ++ us2). split; [|now apply Forall_app].
    now rewrite Hr2, Hr1, <- app_assoc.
  - exists (sc1 ++ sc2). now rewrite Hs1, Hs2, <- app_assoc.
Qed.

Lemma extends_add_log w r allowed : extends w (add_log r w) allowed.
Proof.
  split; try reflexivity.
  - exists []. split; [now rewrite app_nil_r | constructor].
  - now exists [].
Qed.

Lemma request_and_decode_extends u w o w' :
  request_and_decode u w = (o, w') -> extends w w' (eq u).
Proof.
  unfold request_and_decode. cbn [script add_request].
  destruct (script w) as [|ex sc] eqn:Hsc.
  - intros [= <- <-]. split; try reflexivity.
    + exists [u]. split; [reflexivity | now constructor].
    + exists []. now rewrite Hsc.
  - intros Hrun.
    assert (w' = set_script sc (add_request u w)) as ->.
    { destruct ex as [status [response_data|]|]; now injection Hrun. }
    split; try reflexivity.
    + exists [u]. split; [reflexivity | now constructor].
    + exists [ex]. now rewrite Hsc.
Qed.

(** One turn of the retry loop. *)
Lemma request_loop_S fuel u w :
  request_loop (S fuel) u w
  = match request_and_decode u w with
    | (Ret (status, response_data), w1) =>
        if status =? 200 then (Ret response_data, w1)
        else if status =? 429 then request_loop fuel u (add_sleep 60 w1)
        else (Raise (UnexpectedHTTPResponse status), w1)
    | (Raise e, w1) => (Raise e, w1)
    | (SysExit c, w1) => (SysExit c, w1)
    | (Blocked, w1) => (Blocked, w1)
    end.
Proof.
  cbn [request_loop]. unfold bind, LOG, sleep; cbn [enabled].
  destruct (request_and_decode u w) as [[[status response_data]|e|c|] w1];
    try reflexivity.
  destruct (status =? 200); [reflexivity|].
  destruct (status =? 429); reflexivity.
Qed.

Lemma request_loop_extends fuel u :
  forall w o w', request_loop fuel u w = (o, w') -> extends w w' (eq u).
Proof.
  induction fuel as [|fuel IH]; intros w o w'.
  - intros [= <- <-]. apply extends_refl.
  - rewrite request_loop_S.
    destruct (request_and_decode u w) as [[[status response_data]|e|c|] w1] eqn:Hreq;
      apply request_and_decode_extends in Hreq;
      try (intros [= <- <-]; exact Hreq).
    destruct (status =? 200); [intros [= <- <-]; exact Hreq|].
    destruct (status =? 429); [|intros [= <- <-]; exact Hreq].
    intros Hrun. apply IH in Hrun.
    eapply extends_trans; [exact Hreq|].
    eapply extends_trans; [|exact Hrun].
    split; try reflexivity.
    + exists []. split; [now rewrite app_nil_r | constructor].
    + now exists [].
Qed.

Lemma get_data_extends u w o w' :
  _get_data_from_http_request u w = (o, w') -> extends w w' (eq u).
Proof.
  unfold _get_data_from_http_request, try_except.
  destruct (request_loop _ u w) as [[response_data|e|c|] w1] eqn:Hloop;
    apply request_loop_extends in Hloop.
  - now intros [= <- <-].
  - unfold bind, LOG, raise_SystemExit; cbn [enabled]. intros [= <- <-].
    eapply extends_trans; [exact Hloop|].
    eapply extends_trans; apply extends_add_log.
  - now intros [= <- <-].
  - now intros [= <- <-].
Qed.

Lemma extends_weaken w w' (P Q : url -> Prop) :
  (forall u, P u -> Q u) -> extends w w' P -> extends w w' Q.
Proof.
  intros HPQ [Hf Ha (us & Hr & Hu) Hs]. split; auto.
  exists us. split; [exact Hr|]. eapply Forall_impl; [|exact Hu]. exact HPQ.
Qed.

(** *** The fuel is enough *)

(** An answered request shortens the script by one. *)
Lemma request_and_decode_ret u w r w1 :
  request_and_decode u w = (Ret r, w1) ->
  S (length (script w1)) = length (script w).
Proof.
  unfold request_and_decode. cbn [script add_request].
  destruct (script w) as [|[status [response_data|]|] sc]; try discriminate.
  now intros [= _ <-].
Qed.

(** With more turns than the script has answers, the number of turns does
    not matter: the loop never stops for lack of fuel. *)
Lemma request_loop_fuel u :
  forall f1 f2 w,
    (length (script w) < f1)%nat -> (length (script w) < f2)%nat ->
    request_loop f1 u w = request_loop f2 u w.
Proof.
  induction f1 as [|f1 IH]; intros f2 w H1 H2; [lia|].
  destruct f2 as [|f2]; [lia|]. rewrite !request_loop_S.
  destruct (request_and_decode u w) as [[[status response_data]|e|c|] w1] eqn:Hreq;
    try reflexivity.
  apply request_and_decode_ret in Hreq.
  destruct (status =? 200); [reflexivity|].
  destruct (status =? 429); [|reflexivity].
  apply IH; cbn [script add_sleep]; lia.
Qed.

Lemma request_loop_ret u :
  forall fuel w response_data w1,
    request_loop fuel u w = (Ret response_data, w1) ->
    (length (script w1) < length (script w))%nat.
Proof.
  induction fuel as [|fuel IH]; intros w response_data w1; [discriminate|].
  rewrite request_loop_S.
  destruct (request_and_decode u w) as [[[status data]|e|c|] w2] eqn:Hreq;
    try discriminate.
  apply request_and_decode_ret in Hreq.
  destruct (status =? 200).
  { intros [= _ <-]. lia. }
  destruct (status =? 429); [|discriminate].
  intros Hrun. apply IH in Hrun. cbn [script add_sleep] in Hrun. lia.
Qed.

Lemma get_data_ret u w response_data w1 :
  _get_data_from_http_request u w = (Ret response_data, w1) ->
  (length (script w1) < length (script w))%nat.
Proof.
  unfold _get_data_from_http_request, try_except.
  destruct (request_loop _ u w) as [[d|e|c|] w2] eqn:Hloop; try discriminate.
  intros [= _ <-]. eapply request_loop_ret, Hloop.
Qed.

(** One turn of the pagination loop. *)
Lemma list_loop_S fuel authority cursor w :
  list_loop (S fuel) authority cursor w
  = match _get_data_from_http_request (RuntimeResultsUrl authority cursor) w with
    | (Ret response_data, w1) =>
        match (let! json_response := json_loads response_data in
               let! page := py_getitem json_response "page" in
               let! has_next := py_contains "next" page in
               if has_next : bool
               then let! next := py_getitem page "next" in Ok (inl next)
               else Ok (inr json_response)) with
        | Ok (inl next) => list_loop fuel authority next w1
        | Ok (inr json_response) => (Ret json_response, w1)
        | Err e => (Raise e, w1)
        end
    | (Raise e, w1) => (Raise e, w1)
    | (SysExit c, w1) => (SysExit c, w1)
    | (Blocked, w1) => (Blocked, w1)
    end.
Proof.
  cbn [list_loop]. unfold bind, lift.
  destruct (_get_data_from_http_request _ w) as [[response_data|e|c|] w1];
    try reflexivity.
  destruct (json_loads response_data) as [doc|]; [|reflexivity]. cbn [rbind].
  destruct (py_getitem doc "page") as [page|]; [|reflexivity]. cbn [rbind].
  destruct (py_contains "next" page) as [[|]|]; try reflexivity. cbn [rbind].
  destruct (py_getitem page "next") as [next|]; reflexivity.
Qed.

Lemma list_loop_fuel authority :
  forall f1 f2 cursor w,
    (length (script w) < f1)%nat -> (length (script w) < f2)%nat ->
    list_loop f1 authority cursor w = list_loop f2 authority cursor w.
Proof.
  induction f1 as [|f1 IH]; intros f2 cursor w H1 H2; [lia|].
  destruct f2 as [|f2]; [lia|]. rewrite !list_loop_S.
  destruct (_get_data_from_http_request _ w) as [[response_data|e|c|] w1] eqn:Hget;
    try reflexivity.
  apply get_data_ret in Hget.
  match goal with |- match ?r with _ => _ end = _ => destruct r as [[next|doc]|] end;
    try reflexivity.
  apply IH; lia.
Qed.

(** The paginator is the loop with any amount of fuel above the length of
    the script. *)
Lemma paginate_any_fuel authority fuel w :
  (length (script w) < fuel)%nat ->
  list_loop fuel authority (JStr "") w
  = _get_runtime_workload_scan_results_list authority w.
Proof.
  intros Hfuel. unfold _get_runtime_workload_scan_results_list.
  apply list_loop_fuel; lia.
Qed.

Lemma get_data_ok u doc sc w :
  script w = ok doc :: sc ->
  _get_data_from_http_request u w = (Ret (Some doc), after_requests [u] sc w).
Proof.
  intros Hsc. unfold _get_data_from_http_request, try_except.
  rewrite Hsc. cbn [length request_loop].
  unfold bind, LOG, request_and_decode; cbn [enabled script add_request].
  rewrite Hsc. unfold ok. cbn. reflexivity.
Qed.

Lemma has_next_step doc :
  has_next doc ->
  exists page,
    py_getitem doc "page" = Ok page /\
    py_contains "next" page = Ok true /\
    py_getitem page "next" = Ok (next_of doc).
Proof.
  unfold has_next, next_of, next_cursor, page_meta. intros [cursor Hc].
  destruct doc as [| | | | |members]; try discriminate.
  destruct (assoc "page" members) as [page|] eqn:Hp; try discriminate.
  destruct page as [| | | | |meta]; try discriminate.
  exists (JObj meta). cbn. rewrite Hp, Hc. cbn. repeat split.
Qed.

Lemma no_next_step doc :
  no_next doc ->
  exists page,
    py_getitem doc "page" = Ok page /\ py_contains "next" page = Ok false.
Proof.
  unfold no_next, page_meta. intros (meta & Hm & Hn).
  destruct doc as [| | | | |members]; try discriminate.
  destruct (assoc "page" members) as [page|] eqn:Hp; try discriminate.
  destruct page as [| | | | |meta']; try discriminate.
  injection Hm as ->.
  exists (JObj meta). cbn. rewrite Hp, Hn. cbn. split; reflexivity.
Qed.

Lemma list_loop_pages authority last rest pre :
  Forall has_next pre -> no_next last ->
  forall fuel cursor w,
    (length pre < fuel)%nat ->
    script w = map ok (pre ++ [last]) ++ rest ->
    list_loop fuel authority cursor w
    = (Ret last,
       after_requests (map (RuntimeResultsUrl authority) (cursor :: map next_of pre))
         rest w).
Proof.
  intros Hpre Hlast. induction Hpre as [|doc pre Hdoc _ IH]; intros fuel cursor w Hfuel Hsc.
  - destruct fuel as [|fuel]; [cbn in Hfuel; lia|]. cbn [list_loop].
    destruct (no_next_step _ Hlast) as (page & Hp & Hc).
    unfold bind at 1. rewrite (get_data_ok _ last rest w Hsc).
    unfold bind, lift. cbn [json_loads]. rewrite Hp, Hc. reflexivity.
  - destruct fuel as [|fuel]; [cbn in Hfuel; lia|]. cbn [list_loop].
    destruct (has_next_step _ Hdoc) as (page & Hp & Hc & Hn).
    cbn [app map] in Hsc.
    unfold bind at 1. rewrite (get_data_ok _ doc _ w Hsc).
    unfold bind at 1 2 3 4 5, lift. cbn [json_loads]. rewrite Hp, Hc, Hn.
    rewrite IH; [|cbn in Hfuel; lia|reflexivity].
    unfold after_requests. cbn. now rewrite <- app_assoc.
Qed.

Lemma bind_lift {A B : Type} (r : res A) (k : A -> M B) w :
  bind (lift r) k w
  = match r with
    | Ok a => k a w
    | Err e => (Raise e, w)
    end.
Proof. unfold bind, lift. now destruct r. Qed.

Lemma list_loop_extends authority fuel :
  forall cursor w o w',
    list_loop fuel authority cursor w = (o, w') -> extends w w' is_list_request.
Proof.
  induction fuel as [|fuel IH]; intros cursor w o w'; cbn [list_loop].
  - intros [= <- <-]. apply extends_refl.
  - unfold bind at 1.
    destruct (_get_data_from_http_request _ w) as [[response_data|e|c|] w1] eqn:Hget;
      apply get_data_extends in Hget;
      apply (extends_weaken _ _ _ is_list_request) in Hget;
      try (intros u <-; exact I);
      try (intros [= <- <-]; exact Hget).
    rewrite bind_lift. destruct (json_loads response_data) as [doc|];
      [|intros [= <- <-]; exact Hget].
    rewrite bind_lift. destruct (py_getitem doc "page") as [page|];
      [|intros [= <- <-]; exact Hget].
    rewrite bind_lift. destruct (py_contains "next" page) as [[|]|];
      try (intros [= <- <-]; exact Hget).
    rewrite bind_lift. rewrite bind_lift.
    destruct (py_getitem page "next") as [next|];
      [|intros [= <- <-]; exact Hget].
    intros Hrun. apply IH in Hrun. eapply extends_trans; eassumption.
Qed.

Lemma paginate_extends authority w o w' :
  _get_runtime_workload_scan_results_list authority w = (o, w') ->
  extends w w' is_list_request.
Proof. apply list_loop_extends. Qed.

(** As long as every answer names a successor the paginator asks again:
    it does not return on a script of such answers. *)
Lemma list_loop_no_last_page authority pages :
  Forall has_next pages ->
  forall fuel cursor w,
    (length pages < fuel)%nat ->
    script w = map ok pages ->
    fst (list_loop fuel authority cursor w) = Blocked.
Proof.
  induction 1 as [|doc pages Hdoc _ IH]; intros fuel cursor w Hfuel Hsc.
  - destruct fuel as [|fuel]; [reflexivity|]. rewrite list_loop_S.
    unfold _get_data_from_http_request, try_except. rewrite Hsc.
    cbn [length map]. rewrite request_loop_S.
    unfold request_and_decode. cbn [script add_request]. rewrite Hsc. reflexivity.
  - destruct fuel as [|fuel]; [reflexivity|]. rewrite list_loop_S.
    cbn [map] in Hsc. rewrite (get_data_ok _ doc _ w Hsc).
    destruct (has_next_step _ Hdoc) as (page & Hp & Hc & Hn).
    cbn [json_loads rbind]. rewrite Hp. cbn [rbind]. rewrite Hc. cbn [rbind].
    rewrite Hn. cbn [rbind].
    apply IH; [cbn in Hfuel; lia | reflexivity].
Qed.

(** C2: on a sequence of list-endpoint answers, the paginator asks first
    with the empty cursor, then with the [next] of each answer it got, stops
    at the first answer whose page metadata has no [next], and returns that
    answer alone: the earlier pages are not part of the result, and the
    answers after it are not read. *)
Theorem pagination_returns_last_page (authority : string) (pre : list json)
    (last : json) (rest : list exchange) (w : world) :
  Forall has_next pre ->
  no_next last ->
  script w = map ok (pre ++ [last]) ++ rest ->
  _get_runtime_workload_scan_results_list authority w
  = (Ret last,
     after_requests
       (map (RuntimeResultsUrl authority) (JStr "" :: map next_of pre)) rest w).
Proof.
  intros Hpre Hlast Hsc. unfold _get_runtime_workload_scan_results_list.
  apply list_loop_pages; try assumption.
  rewrite Hsc. rewrite !length_app, !length_map, length_app. cbn. lia.
Qed.

Lemma pagination_returns_last_page_witness :
  let first := Sample.more_page "c1" [Sample.scan_result "r1" 1] in
  let last := Sample.last_page [Sample.scan_result "r2" 1] in
  let w := Sample.fresh [ok first; ok last; Failure] in
  Forall has_next [first] /\
  no_next last /\
  script w = map ok ([first] ++ [last]) ++ [Failure] /\
  _get_runtime_workload_scan_results_list "secure.example" w
  = (Ret last,
     after_requests
       [ RuntimeResultsUrl "secure.example" (JStr "");
         RuntimeResultsUrl "secure.example" (JStr "c1") ]
       [Failure] w).
Proof.
  cbv zeta.
  assert (H1 : Forall has_next [Sample.more_page "c1" [Sample.scan_result "r1" 1]]).
  { repeat constructor. vm_compute. eauto. }
  assert (H2 : no_next (Sample.last_page [Sample.scan_result "r2" 1])).
  { eexists. split; reflexivity. }
  split; [exact H1|]. split; [exact H2|]. split; [reflexivity|].
  exact (pagination_returns_last_page "secure.example" _ _ [Failure]
           (Sample.fresh [ ok (Sample.more_page "c1" [Sample.scan_result "r1" 1]);
                           ok (Sample.last_page [Sample.scan_result "r2" 1]);
                           Failure ])
           H1 H2 eq_refl).
Defined.

(** A status other than 200 and 429 ends the call with [SystemExit()],
    whose code is [None]. *)
Lemma unexpected_status_SystemExit u status data sc w :
  status <> 200 -> status <> 429 ->
  script w = Response status (Some data) :: sc ->
  exists w',
    _get_data_from_http_request u w = (SysExit None, w') /\
    requests w' = requests w ++ [u] /\
    files w' = files w /\
    log w' = log w ++ [ (CRITICAL, MsgException (UnexpectedHTTPResponse status));
                        (CRITICAL, MsgErrorRequesting u) ].
Proof.
  intros H200 H429 Hsc. eexists. split.
  - unfold _get_data_from_http_request, try_except. rewrite Hsc.
    cbn [length request_loop]. unfold bind at 1. cbn [LOG enabled].
    unfold bind at 1. unfold request_and_decode. cbn [script add_request].
    rewrite Hsc.
    unfold bind at 1. cbn [LOG enabled].
    apply Z.eqb_neq in H200, H429. rewrite H200, H429.
    cbn. reflexivity.
  - cbn. repeat split. now rewrite <- app_assoc.
Qed.

End HttpFacts.

(** ** The script: proofs *)

Module MainFacts.
Import HttpFacts.

Lemma isfile_regular path rows w :
  files w !! path = Some (RegularFile rows) -> isfile path w = (Ret true, w).
Proof. unfold isfile. now intros ->. Qed.

(** C6: when the output path is an existing file, the process exits with a
    non-zero status, sends no request, reads no answer, and leaves the file
    system, the file included, as it was. *)
Theorem existing_output_file_refused (a : args) (w : world) (rows : list row) :
  files w !! csv_file_name a = Some (RegularFile rows) ->
  exists status w',
    run a w = (Exited status, w') /\
    status <> 0 /\
    requests w' = requests w /\
    script w' = script w /\
    files w' = files w /\
    log w' = log w ++ [(ERROR, MsgFileExists (csv_file_name a))].
Proof.
  intros Hfile. exists 255, (add_log (ERROR, MsgFileExists (csv_file_name a)) w).
  unfold run, main, try_except. unfold bind at 1.
  rewrite (isfile_regular _ _ _ Hfile). cbn.
  repeat split; lia.
Qed.

(** C10: when the page the paginator returns has an empty data list, the
    process exits with status zero, logs that no scan results were found,
    sends nothing after the list requests, and leaves the file system as it
    was: no output file appears. *)
Theorem empty_list_creates_no_file (a : args) (w w1 : world) (page : json) :
  isfile (csv_file_name a) w = (Ret false, w) ->
  Paginate._get_runtime_workload_scan_results_list (secure_url_authority a)
    (started a w) = (Ret page, w1) ->
  py_getitem page "data" = Ok (JArr []) ->
  exists w',
    run a w = (Exited 0, w') /\
    files w' = files w /\
    requests w' = requests w1 /\
    (exists us, requests w1 = requests w ++ us /\ Forall is_list_request us) /\
    log w' = log w1 ++ [ (INFO, MsgFoundTotal 0); (INFO, MsgNoScanResults);
                         (INFO, MsgElapsed); (INFO, MsgComplete) ].
Proof.
  intros Hfree Hlist Hdata.
  pose proof (paginate_extends _ _ _ _ Hlist) as [Hf Ha Hr Hs].
  eexists. split.
  - unfold run, main, try_except. unfold bind at 1.
    rewrite Hfree.
    unfold bind at 1. cbn [ret].
    unfold bind at 1. cbn [set_header].
    unfold bind at 1. cbn [LOG enabled].
    unfold bind at 1. fold (started a w). rewrite Hlist.
    unfold data_len. rewrite bind_lift, Hdata. cbn [rbind py_len length].
    unfold bind at 1. cbn [LOG enabled].
    rewrite bind_lift. cbn. reflexivity.
  - cbn. repeat split.
    + exact Hf.
    + exact Hr.
    + now rewrite <- !app_assoc.
Qed.

Lemma existing_output_file_refused_witness :
  let w := World [ok (Sample.last_page [])] [] [] None []
             {[ "out.csv" := RegularFile [[JStr "kept"]] ]} in
  files w !! csv_file_name Sample.cli = Some (RegularFile [[JStr "kept"]]) /\
  exists status w',
    run Sample.cli w = (Exited status, w') /\
    status <> 0 /\
    requests w' = requests w /\
    script w' = script w /\
    files w' = files w /\
    log w' = log w ++ [(ERROR, MsgFileExists (csv_file_name Sample.cli))].
Proof.
  cbv zeta. split; [reflexivity|].
  exact (existing_output_file_refused Sample.cli
           (World [ok (Sample.last_page [])] [] [] None []
              {[ "out.csv" := RegularFile [[JStr "kept"]] ]})
           [[JStr "kept"]] eq_refl).
Defined.

Lemma empty_list_creates_no_file_witness :
  let w := Sample.fresh [ok (Sample.last_page [])] in
  let w1 := after_requests [RuntimeResultsUrl "secure.example" (JStr "")] []
              (started Sample.cli w) in
  isfile (csv_file_name Sample.cli) w = (Ret false, w) /\
  Paginate._get_runtime_workload_scan_results_list
    (secure_url_authority Sample.cli) (started Sample.cli w)
  = (Ret (Sample.last_page []), w1) /\
  py_getitem (Sample.last_page []) "data" = Ok (JArr []) /\
  exists w',
    run Sample.cli w = (Exited 0, w') /\
    files w' = files w /\
    requests w' = requests w1 /\
    (exists us, requests w1 = requests w ++ us /\ Forall is_list_request us) /\
    log w' = log w1 ++ [ (INFO, MsgFoundTotal 0); (INFO, MsgNoScanResults);
                         (INFO, MsgElapsed); (INFO, MsgComplete) ].
Proof.
  cbv zeta. split; [reflexivity|]. split; [reflexivity|]. split; [reflexivity|].
  exact (empty_list_creates_no_file Sample.cli
           (Sample.fresh [ok (Sample.last_page [])])
           (after_requests [RuntimeResultsUrl "secure.example" (JStr "")] []
              (started Sample.cli (Sample.fresh [ok (Sample.last_page [])])))
           (Sample.last_page []) eq_refl eq_refl eq_refl).
Defined.

(** The flattener starts from an empty [report_data]: the headers it puts
    into [report] are not in what it returns. *)
Lemma gather_nothing images w :
  Flatten._gather_report_data [] images w = (Ret [], w).
Proof. reflexivity. Qed.

(** C1, on the code: the file the script writes has no header row.  With one
    result without vulnerabilities the file is empty; with one result, one
    package and one vulnerability it holds the one data row and nothing
    before it. *)
Theorem header_row_not_written :
  let quiet := [ok (Sample.last_page [Sample.scan_result "r1" 0])] in
  let busy := [ ok (Sample.last_page [Sample.scan_result "r1" 1]);
                ok (Sample.detail "img:1" [Sample.package [Sample.vuln]]) ] in
  length Flatten.report_headers = 26%nat /\
  fst (run Sample.cli (Sample.fresh quiet)) = Exited 0 /\
  files (snd (run Sample.cli (Sample.fresh quiet))) !! "out.csv"
  = Some (RegularFile []) /\
  fst (run Sample.cli (Sample.fresh busy)) = Exited 0 /\
  files (snd (run Sample.cli (Sample.fresh busy))) !! "out.csv"
  = Some (RegularFile [Sample.row_of_vuln]).
Proof. cbv zeta. repeat split. Qed.

(** C3, on the code: an answer with status 500 ends the process with exit
    status zero.  The critical lines are logged, nothing more is requested
    and no file is written, at the list endpoint and at the detail endpoint
    alike. *)
Theorem unexpected_status_exits_zero :
  let list_url := RuntimeResultsUrl "secure.example" (JStr "") in
  let detail_url := ResultUrl "secure.example" (JStr "r1") in
  run Sample.cli (Sample.fresh [Response 500 (Some None); ok (Sample.last_page [])])
  = (Exited 0,
     World [ok (Sample.last_page [])] [list_url] [] (Some "Bearer token")
       [ (INFO, MsgRetrievingList);
         (CRITICAL, MsgException (UnexpectedHTTPResponse 500));
         (CRITICAL, MsgErrorRequesting list_url) ] ∅) /\
  run Sample.cli
    (Sample.fresh [ ok (Sample.last_page [Sample.scan_result "r1" 1]);
                    Response 500 (Some None) ])
  = (Exited 0,
     World [] [list_url; detail_url] [] (Some "Bearer token")
       [ (INFO, MsgRetrievingList); (INFO, MsgFoundTotal 1);
         (INFO, MsgRetrievingWithVulns); (INFO, MsgFoundWithVulns 1);
         (INFO, MsgFoundWithoutVulns 0); (INFO, MsgRetrievingFull);
         (CRITICAL, MsgException (UnexpectedHTTPResponse 500));
         (CRITICAL, MsgErrorRequesting detail_url) ] ∅).
Proof. cbv zeta. split; reflexivity. Qed.

End MainFacts.

(** ** Report flattening: proofs *)

Module FlattenFacts.
Import Flatten HttpFacts.

Lemma has_keys_cons k ks v :
  has_keys (k :: ks) v = true ->
  exists members x,
    v = JObj members /\ assoc k members = Some x /\ has_keys ks v = true.
Proof.
  destruct v as [| | | | |members]; try discriminate. cbn [has_keys forallb].
  intros [Hk Hks]%andb_prop. apply bool_decide_eq_true in Hk as [x Hx].
  now exists members, x.
Qed.

Lemma has_keys_getitem ks v k :
  has_keys ks v = true -> In k ks -> exists x, py_getitem v k = Ok x.
Proof.
  destruct v as [| | | | |members]; try discriminate. cbn [has_keys py_getitem].
  intros Hall Hin. rewrite forallb_forall in Hall.
  apply Hall in Hin. apply bool_decide_eq_true in Hin as [x ->]. now exists x.
Qed.

Lemma py_get_member members k dflt :
  py_get (JObj members) k dflt = Ok (default dflt (assoc k members)).
Proof. cbn. now destruct (assoc k members). Qed.

Lemma py_get_absent v k default :
  absent k v -> py_get v k default = Ok default.
Proof. intros (members & -> & Hk). cbn. now rewrite Hk. Qed.

(** The severity of a well-formed vulnerability: both lookups succeed, and
    the value is blank when the vulnerability has no severity. *)
Lemma severity_lookup members :
  optional "severity" (has_keys ["value"; "sourceName"]) (JObj members) = true ->
  exists sev value source,
    py_get (JObj members) "severity" severity_default = Ok sev /\
    py_getitem sev "value" = Ok value /\
    py_getitem sev "sourceName" = Ok source /\
    (assoc "severity" members = None -> value = JStr "").
Proof.
  unfold optional. cbn [member py_get].
  destruct (assoc "severity" members) as [sev|] eqn:Hsev.
  - intros Hkeys.
    destruct (has_keys_getitem _ _ "value" Hkeys) as [value Hv]; [cbn; auto|].
    destruct (has_keys_getitem _ _ "sourceName" Hkeys) as [source Hs]; [cbn; auto|].
    exists sev, value, source. repeat split; auto. discriminate.
  - intros _. exists severity_default, (JStr ""), (JStr ""). repeat split.
Qed.

(** The CVSS of a well-formed vulnerability: every lookup succeeds, and the
    three cells are blank when the vulnerability has no CVSS object or when
    its CVSS object has no value. *)
Lemma cvss_lookup members :
  optional "cvssScore" wf_cvss (JObj members) = true ->
  exists cvss value version score vector source,
    py_get (JObj members) "cvssScore" cvss_default = Ok cvss /\
    py_get cvss "value" cvss_value_default = Ok value /\
    py_getitem value "version" = Ok version /\
    py_getitem value "score" = Ok score /\
    py_getitem value "vector" = Ok vector /\
    py_getitem cvss "sourceName" = Ok source /\
    ((assoc "cvssScore" members = None \/
      exists c, assoc "cvssScore" members = Some c /\ absent "value" c) ->
     version = JStr "" /\ score = JStr "" /\ vector = JStr "").
Proof.
  unfold optional. cbn [member py_get].
  destruct (assoc "cvssScore" members) as [cvss|] eqn:Hcvss.
  - unfold wf_cvss. intros [Hsrc Hval]%andb_prop.
    destruct (has_keys_cons _ _ _ Hsrc) as (cm & source & -> & Hs & _).
    unfold optional in Hval. cbn [member] in Hval.
    destruct (assoc "value" cm) as [value|] eqn:Hv.
    + destruct (has_keys_getitem _ _ "version" Hval) as [version Hver]; [cbn; auto|].
      destruct (has_keys_getitem _ _ "score" Hval) as [score Hsc]; [cbn; auto|].
      destruct (has_keys_getitem _ _ "vector" Hval) as [vector Hvec]; [cbn; auto 6|].
      exists (JObj cm), value, version, score, vector, source.
      cbn [py_get py_getitem]. rewrite Hv, Hs. repeat split; try assumption.
      all: match goal with
           | H : _ \/ _ |- _ =>
               destruct H as [[=]|(c & [= <-] & (cm' & [= <-] & Hno))]; congruence
           end.
    + exists (JObj cm), cvss_value_default, (JStr ""), (JStr ""), (JStr ""), source.
      cbn [py_get py_getitem]. rewrite Hv, Hs. repeat split.
  - intros _.
    exists cvss_default, cvss_value_default, (JStr ""), (JStr ""), (JStr ""), (JStr "").
    repeat split.
Qed.

Lemma report_row_wf rl pl vuln :
  wf_vuln vuln = true ->
  exists r, report_row rl pl vuln = Ok r /\ row_facts pl vuln r.
Proof.
  unfold wf_vuln. intros [[Hreq Hsev]%andb_prop Hcvss]%andb_prop.
  destruct (has_keys_cons _ _ _ Hreq) as (members & date & -> & Hdate & Hreq').
  destruct (has_keys_cons _ _ _ Hreq') as (? & flag & [= <-] & Hflag & _).
  destruct (severity_lookup _ Hsev) as (sev & sv & ss & Hs1 & Hs2 & Hs3 & Hsb).
  destruct (cvss_lookup _ Hcvss)
    as (cvss & value & ver & sc & vec & src & Hc1 & Hc2 & Hc3 & Hc4 & Hc5 & Hc6 & Hcb).
  unfold report_row.
  rewrite (py_get_member members "name"). cbn [rbind].
  rewrite Hs1. cbn [rbind]. rewrite Hs2. cbn [rbind]. rewrite Hs3. cbn [rbind].
  rewrite Hc1. cbn [rbind]. rewrite Hc2. cbn [rbind].
  rewrite Hc3, Hc4, Hc5, Hc6. cbn [rbind].
  rewrite (py_get_member members "solutionDate"), (py_get_member members "fixedInVersion").
  cbn [py_getitem]. rewrite Hdate, Hflag. cbn [rbind].
  eexists. split; [reflexivity|].
  unfold row_facts. repeat match goal with |- _ /\ _ => split end;
    try reflexivity.
  - unfold vuln_defaults, cvss_columns.
    split_list; cbn [fst snd]; intros (m' & [= <-] & Hno);
      unfold blank_in; split_list.
    + now rewrite (Hsb Hno).
    + destruct Hcb as (-> & _ & _); auto.
    + destruct Hcb as (_ & -> & _); auto.
    + destruct Hcb as (_ & _ & ->); auto.
    + now rewrite Hno.
    + now rewrite Hno.
  - intros c Hc Habs. cbn [member] in Hc.
    destruct Hcb as (-> & -> & ->); [right; now exists c|].
    unfold cvss_columns, blank_in. split_list; reflexivity.
Qed.

Lemma vuln_loop_wf rl pl vulns :
  forallb wf_vuln vulns = true ->
  forall acc,
  exists rows,
    vuln_loop rl pl vulns acc = Ok (acc ++ rows) /\
    Forall2 (row_facts pl) vulns rows.
Proof.
  induction vulns as [|vuln rest IH]; cbn [forallb vuln_loop]; intros Hwf acc.
  - exists []. split; [now rewrite app_nil_r | constructor].
  - apply andb_prop in Hwf as [Hvuln Hrest].
    destruct (report_row_wf rl pl vuln Hvuln) as (r & -> & Hr). cbn [rbind].
    destruct (IH Hrest (acc ++ [r])) as (rows & -> & Hrows).
    exists (r :: rows). split; [now rewrite <- app_assoc | now constructor].
Qed.

(** A package with a list of well-formed vulnerabilities adds one row for
    each of them, and the rows obey the defaults. *)
Lemma package_body_vulns rl members vulns acc :
  assoc "vulns" members = Some (JArr vulns) ->
  forallb wf_vuln vulns = true ->
  exists rows,
    package_body rl (JObj members) acc = Ok (acc ++ rows) /\
    Forall2 (defaults_hold (JObj members)) vulns rows.
Proof.
  intros Hvulns Hwf. unfold package_body.
  rewrite !py_get_member. rewrite Hvulns. cbn [rbind default from_option id is_None py_iter].
  match goal with |- context [vuln_loop rl ?pl vulns acc] => set (locals := pl) end.
  destruct (vuln_loop_wf rl locals vulns Hwf acc) as (rows & -> & Hrows).
  exists rows. split; [reflexivity|].
  eapply Forall2_impl; [|exact Hrows].
  intros vuln r (Hn & Hv & Ht & Hp & Hs & Hu & Hdef & Hcvss).
  split; [exact Hdef|]. split; [|exact Hcvss].
  unfold package_defaults. split_list; cbn [fst snd];
    intros (m' & [= <-] & Hno); unfold blank_in; split_list.
  - rewrite Hn. subst locals. cbn. now rewrite Hno.
  - rewrite Hv. subst locals. cbn. now rewrite Hno.
  - rewrite Ht. subst locals. cbn. now rewrite Hno.
  - rewrite Hp. subst locals. cbn. now rewrite Hno.
  - rewrite Hs. subst locals. cbn. now rewrite Hno.
  - rewrite Hu. subst locals. cbn. now rewrite Hno.
Qed.

Lemma package_body_wf rl package acc :
  wf_package package = true ->
  exists rows,
    package_body rl package acc = Ok (acc ++ rows) /\
    length rows = length (vulns_of package).
Proof.
  destruct package as [| | | | |members]; try discriminate.
  unfold wf_package, vulns_of. cbn [member].
  destruct (assoc "vulns" members) as [vulns|] eqn:Hvulns.
  - destruct vulns as [| | | |vulns|]; try discriminate.
    + intros _. exists []. unfold package_body. rewrite py_get_member, Hvulns.
      cbn. now rewrite app_nil_r.
    + intros Hwf.
      destruct (package_body_vulns rl members vulns acc Hvulns Hwf) as (rows & Hrun & Hrows).
      exists rows. split; [exact Hrun|]. symmetry. eapply Forall2_length, Hrows.
  - intros _. exists []. unfold package_body. rewrite py_get_member, Hvulns.
    cbn. now rewrite app_nil_r.
Qed.

Lemma package_loop_wf rl packages :
  forallb wf_package packages = true ->
  forall acc,
  exists rows,
    package_loop rl packages acc = Ok (acc ++ rows) /\
    length rows = list_sum (map (fun package => length (vulns_of package)) packages).
Proof.
  induction packages as [|package rest IH]; cbn [forallb package_loop]; intros Hwf acc.
  - exists []. split; [now rewrite app_nil_r | reflexivity].
  - apply andb_prop in Hwf as [Hpackage Hrest].
    destruct (package_body_wf rl package acc Hpackage) as (rows1 & -> & Hlen1).
    cbn [rbind].
    destruct (IH Hrest (acc ++ rows1)) as (rows2 & -> & Hlen2).
    exists (rows1 ++ rows2). split; [now rewrite <- app_assoc|].
    now rewrite length_app, Hlen1, Hlen2.
Qed.

(** Leaving out the packages without entries does not change the sum. *)
Lemma list_sum_positive {A : Type} (f : A -> nat) (l : list A) :
  list_sum (map f (List.filter (fun x => (1 <=? f x)%nat) l)) = list_sum (map f l).
Proof.
  induction l as [|x l IH]; [reflexivity|]. cbn [List.filter].
  assert (Hcons : forall n ns, list_sum (n :: ns) = (n + list_sum ns)%nat)
    by reflexivity.
  destruct (1 <=? f x)%nat eqn:Hx; cbn [map]; rewrite ?Hcons, IH; [reflexivity|].
  apply Nat.leb_gt in Hx. lia.
Qed.

Lemma is_str_other s v : v <> JStr s -> is_str s v = false.
Proof.
  destruct v as [| | |t| |]; try reflexivity. cbn. intros Hne.
  apply String.eqb_neq. congruence.
Qed.

Lemma has_scope_lookup result k :
  has_scope result = true -> In k scope_names -> exists x, scope_of result k = Ok x.
Proof.
  unfold has_scope, scope_of.
  destruct result as [| | | | |members]; try discriminate. cbn [member py_getitem].
  destruct (assoc "scope" members) as [scope|]; [|discriminate].
  intros Hkeys Hin. cbn [rbind]. eapply has_keys_getitem; eassumption.
Qed.

Lemma member_getitem k v x : member k v = Some x -> py_getitem v k = Ok x.
Proof. destruct v; try discriminate. cbn. now intros ->. Qed.

(** What the flattener reads in a well-formed detail document. *)
Lemma wf_detail_lookup detail :
  wf_detail detail = true ->
  exists r md image_id base_os,
    py_getitem detail "result" = Ok r /\
    py_getitem r "metadata" = Ok (JObj md) /\
    assoc "imageId" md = Some image_id /\
    assoc "baseOs" md = Some base_os /\
    pull_string detail = assoc "pullString" md /\
    (let! packages := py_get r "packages" (JObj []) in py_iter packages)
    = Ok (packages_of detail) /\
    forallb wf_package (packages_of detail) = true.
Proof.
  unfold wf_detail, pull_string, metadata, packages_of.
  destruct (member "result" detail) as [r|] eqn:Hr; [|discriminate].
  destruct (member "metadata" r) as [md|] eqn:Hmd; [|discriminate].
  intros [Hkeys Hpackages]%andb_prop.
  destruct (has_keys_cons _ _ _ Hkeys) as (mm & image_id & -> & Himage & Hkeys').
  destruct (has_keys_cons _ _ _ Hkeys') as (? & base_os & [= <-] & Hbase & _).
  exists r, mm, image_id, base_os.
  rewrite (member_getitem _ _ _ Hr), (member_getitem _ _ _ Hmd).
  repeat split; try assumption.
  - destruct r as [| | | | |rm]; try discriminate. cbn [member py_get] in *.
    destruct (assoc "packages" rm) as [packages|]; [|reflexivity].
    now destruct packages.
  - destruct (member "packages" r) as [packages|]; [|reflexivity].
    now destruct packages.
Qed.

Lemma blank_pull_string_lookup images id detail :
  dict_getitem images id = Ok detail ->
  pull_string detail = Some (JStr "") ->
  (let! md := metadata_of images id in py_get md "pullString" JNull) = Ok (JStr "").
Proof.
  intros Hdetail. unfold pull_string, metadata, metadata_of, scan_result_of.
  rewrite Hdetail. cbn [rbind].
  destruct (member "result" detail) as [r|] eqn:Hr; [|discriminate].
  destruct (member "metadata" r) as [md|] eqn:Hmd; [|discriminate].
  rewrite (member_getitem _ _ _ Hr). cbn [rbind].
  rewrite (member_getitem _ _ _ Hmd). cbn [rbind].
  destruct md as [| | | | |mm]; try discriminate. cbn. now intros ->.
Qed.

(** A result whose image pull string is blank: a warning, and no row. *)
Lemma result_body_blank images result id detail :
  py_getitem result "resultId" = Ok id ->
  has_scope result = true ->
  dict_getitem images id = Ok detail ->
  pull_string detail = Some (JStr "") ->
  forall acc w,
    result_body images result acc w
    = (Ret acc, add_log (WARNING, MsgBlankPullString id) w).
Proof.
  intros Hid Hscope Hdetail Hblank acc w. unfold result_body.
  rewrite bind_lift, Hid.
  destruct (has_scope_lookup result "kubernetes.cluster.name" Hscope) as [c Hc];
    [cbn; auto|].
  destruct (has_scope_lookup result "kubernetes.namespace.name" Hscope) as [n Hn];
    [cbn; auto|].
  destruct (has_scope_lookup result "kubernetes.pod.container.name" Hscope) as [p Hp];
    [cbn; auto|].
  destruct (has_scope_lookup result "kubernetes.workload.name" Hscope) as [wn Hwn];
    [cbn; auto 6|].
  destruct (has_scope_lookup result "kubernetes.workload.type" Hscope) as [wt Hwt];
    [cbn; auto 7|].
  rewrite bind_lift, Hc, bind_lift, Hn, bind_lift, Hp, bind_lift, Hwn, bind_lift, Hwt.
  rewrite bind_lift, (blank_pull_string_lookup _ _ _ Hdetail Hblank).
  reflexivity.
Qed.

Lemma result_loop_app images pre post :
  forall acc w,
    result_loop images (pre ++ post) acc w
    = bind (result_loop images pre acc) (fun rows => result_loop images post rows) w.
Proof.
  induction pre as [|result pre IH]; intros acc w; [reflexivity|].
  cbn [app result_loop]. unfold bind at 1 2 3.
  destruct (result_body images result acc w) as [[rows|e|c|] w1]; try reflexivity.
  apply IH.
Qed.

(** C7: a kept result whose detail document has the empty string as image
    pull string adds no row and logs one warning; the results before it and
    after it are processed as if it were not there. *)
Theorem blank_pull_string_skipped (images : pydict) (result id detail : json)
    (pre post : list json) (acc : list row) (w : world) :
  py_getitem result "resultId" = Ok id ->
  has_scope result = true ->
  dict_getitem images id = Ok detail ->
  pull_string detail = Some (JStr "") ->
  result_body images result acc w
  = (Ret acc, add_log (WARNING, MsgBlankPullString id) w) /\
  result_loop images (pre ++ result :: post) acc w
  = (rows <- result_loop images pre acc;;
     LOG WARNING (MsgBlankPullString id);;
     result_loop images post rows) w.
Proof.
  intros Hid Hscope Hdetail Hblank.
  pose proof (result_body_blank _ _ _ _ Hid Hscope Hdetail Hblank) as Hbody.
  split; [apply Hbody|].
  rewrite result_loop_app. unfold bind at 1 2.
  destruct (result_loop images pre acc w) as [[rows|e|c|] w1]; try reflexivity.
  cbn [result_loop]. unfold bind at 1 2. rewrite Hbody. reflexivity.
Qed.

(** C4, amended: a kept result whose image pull string is not the empty
    string adds as many rows as its packages with at least one vulnerability
    entry have entries in total. *)
Theorem rows_of_kept_result (images : pydict) (result id detail : json)
    (acc : list row) (w : world) :
  has_vulnerabilities result = true ->
  py_getitem result "resultId" = Ok id ->
  has_scope result = true ->
  dict_getitem images id = Ok detail ->
  wf_detail detail = true ->
  pull_string detail <> Some (JStr "") ->
  exists rows,
    result_body images result acc w = (Ret (acc ++ rows), w) /\
    length rows = vulnerability_count detail.
Proof.
  intros _ Hid Hscope Hdetail Hwf Hpull. unfold result_body.
  rewrite bind_lift, Hid.
  destruct (has_scope_lookup result "kubernetes.cluster.name" Hscope) as [c Hc];
    [cbn; auto|].
  destruct (has_scope_lookup result "kubernetes.namespace.name" Hscope) as [n Hn];
    [cbn; auto|].
  destruct (has_scope_lookup result "kubernetes.pod.container.name" Hscope) as [p Hp];
    [cbn; auto|].
  destruct (has_scope_lookup result "kubernetes.workload.name" Hscope) as [wn Hwn];
    [cbn; auto 6|].
  destruct (has_scope_lookup result "kubernetes.workload.type" Hscope) as [wt Hwt];
    [cbn; auto 7|].
  rewrite bind_lift, Hc, bind_lift, Hn, bind_lift, Hp, bind_lift, Hwn, bind_lift, Hwt.
  destruct (wf_detail_lookup _ Hwf)
    as (r & md & image_id & base_os & Hr & Hmd & Himage & Hbase & Hps & Hpk & Hwfp).
  unfold metadata_of, scan_result_of. rewrite Hdetail. cbn [rbind].
  rewrite Hr. cbn [rbind]. rewrite Hmd. cbn [rbind].
  rewrite bind_lift, py_get_member.
  rewrite is_str_other.
  2:{ rewrite Hps in Hpull. destruct (assoc "pullString" md); cbn; congruence. }
  rewrite bind_lift. cbn [py_getitem]. rewrite Himage.
  rewrite bind_lift, Hbase.
  rewrite bind_lift, Hpk.
  match goal with |- context [package_loop ?rl _ acc] =>
    destruct (package_loop_wf rl _ Hwfp acc) as (rows & Hrun & Hlen)
  end.
  exists rows. unfold lift. rewrite Hrun. split; [reflexivity|].
  unfold vulnerability_count. now rewrite list_sum_positive.
Qed.

(** C8, amended: for a package with a list of well-formed vulnerability
    records, the flattener does not fail and writes one row per record; in
    that row every column fed by an optional member that is missing as a
    whole (the severity object, the CVSS object or its value object, the
    solution date, the fixed-in version, and the package name, version, type,
    path, suggested fix and in-use flag) holds the empty string. *)
Theorem missing_members_default (rl : result_locals) (package : json)
    (vulns : list json) (acc : list row) :
  member "vulns" package = Some (JArr vulns) ->
  forallb wf_vuln vulns = true ->
  exists rows,
    package_body rl package acc = Ok (acc ++ rows) /\
    Forall2 (defaults_hold package) vulns rows.
Proof.
  destruct package as [| | | | |members]; try discriminate. cbn [member].
  apply package_body_vulns.
Qed.

Lemma blank_pull_string_skipped_witness :
  let images := [ (JStr "r1", Sample.detail "img:1" [Sample.package [Sample.vuln]]);
                  (JStr "r2", Sample.detail "" [Sample.package [Sample.vuln]]) ] in
  let result := Sample.scan_result "r2" 1 in
  let w := Sample.fresh [] in
  py_getitem result "resultId" = Ok (JStr "r2") /\
  has_scope result = true /\
  dict_getitem images (JStr "r2")
  = Ok (Sample.detail "" [Sample.package [Sample.vuln]]) /\
  pull_string (Sample.detail "" [Sample.package [Sample.vuln]]) = Some (JStr "") /\
  result_body images result [] w
  = (Ret [], add_log (WARNING, MsgBlankPullString (JStr "r2")) w) /\
  result_loop images
    ([Sample.scan_result "r1" 1] ++ result :: [Sample.scan_result "r1" 2]) [] w
  = (Ret [Sample.row_of_vuln; Sample.row_of_vuln],
     add_log (WARNING, MsgBlankPullString (JStr "r2")) w).
Proof.
  cbv zeta. do 4 (split; [reflexivity|]).
  pose proof (blank_pull_string_skipped
                [ (JStr "r1", Sample.detail "img:1" [Sample.package [Sample.vuln]]);
                  (JStr "r2", Sample.detail "" [Sample.package [Sample.vuln]]) ]
                (Sample.scan_result "r2" 1) (JStr "r2")
                (Sample.detail "" [Sample.package [Sample.vuln]])
                [Sample.scan_result "r1" 1] [Sample.scan_result "r1" 2] []
                (Sample.fresh []) eq_refl eq_refl eq_refl eq_refl) as [Hbody Hloop].
  split; [exact Hbody|]. rewrite Hloop. reflexivity.
Defined.

(** C4 fails as stated: a kept, well-formed result whose image pull string
    is blank adds no row, while its one package has one vulnerability entry. *)
Lemma kept_result_without_rows :
  let detail := Sample.detail "" [Sample.package [Sample.vuln]] in
  let images := [(JStr "r1", detail)] in
  let result := Sample.scan_result "r1" 1 in
  has_vulnerabilities result = true /\
  has_scope result = true /\
  dict_getitem images (JStr "r1") = Ok detail /\
  wf_detail detail = true /\
  vulnerability_count detail = 1%nat /\
  result_body images result [] (Sample.fresh [])
  = (Ret [], add_log (WARNING, MsgBlankPullString (JStr "r1")) (Sample.fresh [])).
Proof. cbv zeta. repeat split. Qed.

Lemma rows_of_kept_result_witness :
  let detail :=
    Sample.detail "img:1"
      [ Sample.package [Sample.vuln; Sample.vuln_bare]; Sample.package_clean;
        Sample.package []; Sample.package_bare [Sample.vuln] ] in
  let images := [(JStr "r1", detail)] in
  let result := Sample.scan_result "r1" 3 in
  has_vulnerabilities result = true /\
  py_getitem result "resultId" = Ok (JStr "r1") /\
  has_scope result = true /\
  dict_getitem images (JStr "r1") = Ok detail /\
  wf_detail detail = true /\
  pull_string detail <> Some (JStr "") /\
  vulnerability_count detail = 3%nat /\
  exists rows,
    result_body images result [] (Sample.fresh []) = (Ret ([] ++ rows), Sample.fresh []) /\
    length rows = vulnerability_count detail.
Proof.
  cbv zeta. do 5 (split; [reflexivity|]).
  assert (Hpull : pull_string
                    (Sample.detail "img:1"
                       [ Sample.package [Sample.vuln; Sample.vuln_bare];
                         Sample.package_clean; Sample.package [];
                         Sample.package_bare [Sample.vuln] ])
                  <> Some (JStr "")) by (vm_compute; discriminate).
  split; [exact Hpull|]. split; [reflexivity|].
  exact (rows_of_kept_result
           [ (JStr "r1",
              Sample.detail "img:1"
                [ Sample.package [Sample.vuln; Sample.vuln_bare];
                  Sample.package_clean; Sample.package [];
                  Sample.package_bare [Sample.vuln] ]) ]
           (Sample.scan_result "r1" 3) (JStr "r1") _ []
           (Sample.fresh []) eq_refl eq_refl eq_refl eq_refl eq_refl Hpull).
Defined.

(** C8 fails as stated: a CVSS value that is present without its vector
    makes the flattener raise [KeyError], and the run ends with a non-zero
    status and no output file. *)
Lemma missing_vector_raises :
  let pl := PackageLocals (JStr "") (JStr "curl") (JStr "7.0") (JStr "") (JStr "")
              (JStr "") in
  let script :=
    [ ok (Sample.last_page [Sample.scan_result "r1" 1]);
      ok (Sample.detail "img:1" [Sample.package [Sample.vuln_no_vector]]) ] in
  member "cvssScore" Sample.vuln_no_vector
  = Some (JObj [ ("value", JObj [("version", JStr "3.1"); ("score", JInt 7)]);
                 ("sourceName", JStr "nvd") ]) /\
  report_row Sample.locals pl Sample.vuln_no_vector = Err (KeyError (JStr "vector")) /\
  package_body Sample.locals (Sample.package [Sample.vuln_no_vector]) []
  = Err (KeyError (JStr "vector")) /\
  fst (run Sample.cli (Sample.fresh script)) = Exited 255 /\
  files (snd (run Sample.cli (Sample.fresh script))) !! "out.csv" = None /\
  In (CRITICAL, MsgException (KeyError (JStr "vector")))
    (log (snd (run Sample.cli (Sample.fresh script)))).
Proof. cbv zeta. repeat split. vm_compute. tauto. Qed.

Lemma missing_members_default_witness :
  member "vulns" (Sample.package_bare [Sample.vuln_bare])
  = Some (JArr [Sample.vuln_bare]) /\
  forallb wf_vuln [Sample.vuln_bare] = true /\
  package_body Sample.locals (Sample.package_bare [Sample.vuln_bare]) []
  = Ok [Sample.row_of_bare] /\
  exists rows,
    package_body Sample.locals (Sample.package_bare [Sample.vuln_bare]) []
    = Ok ([] ++ rows) /\
    Forall2 (defaults_hold (Sample.package_bare [Sample.vuln_bare]))
      [Sample.vuln_bare] rows.
Proof.
  do 3 (split; [reflexivity|]).
  exact (missing_members_default Sample.locals
           (Sample.package_bare [Sample.vuln_bare]) [Sample.vuln_bare] []
           eq_refl eq_refl).
Defined.

End FlattenFacts.

(** ** Effects: proofs *)

Module EffectFacts.
Import Http Paginate HttpFacts.

Lemma network_only_ret {A : Type} allowed (a : A) : network_only allowed (ret a).
Proof.
  intros w o w' [= <- <-]. split; [apply extends_refl | discriminate].
Qed.

Lemma network_only_lift {A : Type} allowed (r : res A) : network_only allowed (lift r).
Proof.
  intros w o w'. unfold lift. destruct r; intros [= <- <-];
    (split; [apply extends_refl | discriminate]).
Qed.

Lemma network_only_raise {A : Type} allowed e : network_only allowed (@raise A e).
Proof.
  intros w o w' [= <- <-]. split; [apply extends_refl | discriminate].
Qed.

Lemma network_only_LOG allowed l m : network_only allowed (LOG l m).
Proof.
  intros w o w' [= <- <-]. split; [|discriminate].
  destruct (enabled l); [apply extends_add_log | apply extends_refl].
Qed.

Lemma network_only_bind {A B : Type} allowed (m : M A) (k : A -> M B) :
  network_only allowed m ->
  (forall a, network_only allowed (k a)) ->
  network_only allowed (bind m k).
Proof.
  intros Hm Hk w o w'. unfold bind.
  destruct (m w) as [[a|e|c|] w1] eqn:Hrun; apply Hm in Hrun as [Hext Hexit].
  - intros Hrest. apply Hk in Hrest as [Hext' Hexit'].
    split; [eapply extends_trans; eassumption | exact Hexit'].
  - intros [= <- <-]. split; [exact Hext | discriminate].
  - intros [= <- <-]. split; [exact Hext|]. intros code [= <-]. now apply Hexit.
  - intros [= <- <-]. split; [exact Hext | discriminate].
Qed.

Lemma network_only_weaken {A : Type} (P Q : url -> Prop) (m : M A) :
  (forall u, P u -> Q u) -> network_only P m -> network_only Q m.
Proof.
  intros HPQ Hm w o w' Hrun. apply Hm in Hrun as [Hext Hexit].
  split; [eapply extends_weaken; eassumption | exact Hexit].
Qed.

(** The retry loop itself neither raises [SystemExit] nor returns without
    an answer. *)
Lemma request_loop_outcome u :
  forall fuel w o w',
    request_loop fuel u w = (o, w') ->
    match o with
    | Ret _ | Blocked => True
    | Raise e =>
        e = HTTPError \/ e = UnicodeDecodeError \/
        exists status, e = UnexpectedHTTPResponse status /\ status <> 200 /\ status <> 429
    | SysExit _ => False
    end.
Proof.
  induction fuel as [|fuel IH]; intros w o w'.
  - now intros [= <- <-].
  - rewrite request_loop_S. unfold request_and_decode. cbn [script add_request].
    destruct (script w) as [|[status [response_data|]|] sc].
    + now intros [= <- <-].
    + destruct (status =? 200) eqn:H200; [now intros [= <- <-]|].
      destruct (status =? 429) eqn:H429; [apply IH|].
      intros [= <- <-]. right. right. exists status.
      apply Z.eqb_neq in H200, H429. auto.
    + intros [= <- <-]. auto.
    + intros [= <- <-]. auto.
Qed.

Lemma network_only_get_data u : network_only (eq u) (_get_data_from_http_request u).
Proof.
  intros w o w' Hrun. split; [eapply get_data_extends, Hrun|].
  revert Hrun. unfold _get_data_from_http_request, try_except.
  destruct (request_loop _ u w) as [[d|e|c|] w1] eqn:Hloop.
  - intros [= <- <-]. discriminate.
  - unfold bind, LOG, raise_SystemExit. intros [= <- <-]. now intros code [= <-].
  - now apply request_loop_outcome in Hloop.
  - intros [= <- <-]. discriminate.
Qed.

Lemma network_only_list_loop authority fuel :
  forall cursor,
    network_only (list_request_to authority) (list_loop fuel authority cursor).
Proof.
  induction fuel as [|fuel IH]; intros cursor; cbn [list_loop].
  - intros w o w' [= <- <-]. split; [apply extends_refl | discriminate].
  - apply network_only_bind.
    { eapply network_only_weaken; [|apply network_only_get_data].
      intros u <-. now exists cursor. }
    intros response_data. apply network_only_bind; [apply network_only_lift|].
    intros json_response. apply network_only_bind; [apply network_only_lift|].
    intros page. apply network_only_bind; [apply network_only_lift|].
    intros [|]; [|apply network_only_ret].
    apply network_only_bind; [apply network_only_lift|].
    intros page'. apply network_only_bind; [apply network_only_lift|].
    intros next. apply IH.
Qed.

Lemma network_only_paginate authority :
  network_only (list_request_to authority)
    (_get_runtime_workload_scan_results_list authority).
Proof. intros w o w'. apply network_only_list_loop. Qed.

Lemma network_only_images_loop authority results :
  forall images,
    network_only (detail_request_to authority)
      (Detail.images_loop authority results images).
Proof.
  induction results as [|result rest IH]; intros images; cbn [Detail.images_loop].
  - apply network_only_ret.
  - apply network_only_bind; [apply network_only_lift|].
    intros resultId. apply network_only_bind; [apply network_only_lift|].
    intros [|]; [apply IH|].
    apply network_only_bind.
    { eapply network_only_weaken; [|apply network_only_get_data].
      intros u <-. now exists resultId. }
    intros response_data. apply network_only_bind; [apply network_only_lift|].
    intros json_response. apply IH.
Qed.

(** The flattener sends nothing. *)
Lemma network_only_result_body images result acc :
  network_only (fun _ => False) (Flatten.result_body images result acc).
Proof.
  unfold Flatten.result_body.
  repeat (apply network_only_bind; [apply network_only_lift|]; intros ?).
  destruct (is_str _ _).
  - apply network_only_bind; [apply network_only_LOG|]. intros _.
    apply network_only_ret.
  - repeat (apply network_only_bind; [apply network_only_lift|]; intros ?).
    apply network_only_lift.
Qed.

Lemma network_only_result_loop images results :
  forall acc, network_only (fun _ => False) (Flatten.result_loop images results acc).
Proof.
  induction results as [|result rest IH]; intros acc; cbn [Flatten.result_loop].
  - apply network_only_ret.
  - apply network_only_bind; [apply network_only_result_body|]. intros rows. apply IH.
Qed.

Lemma network_only_gather results images :
  network_only (fun _ => False) (Flatten._gather_report_data results images).
Proof.
  unfold Flatten._gather_report_data.
  apply network_only_bind; [apply network_only_result_loop|].
  intros rows. apply network_only_ret.
Qed.

Lemma request_loop_retries u response_data sc bodies :
  forall fuel w,
    (length bodies < fuel)%nat ->
    script w = map throttled bodies ++ Response 200 (Some response_data) :: sc ->
    request_loop fuel u w
    = (Ret response_data, after_retries u (length bodies) sc w).
Proof.
  induction bodies as [|body bodies IH]; intros fuel w Hfuel Hsc;
    (destruct fuel as [|fuel]; [cbn in Hfuel; lia|]);
    rewrite request_loop_S; unfold request_and_decode;
    cbn [script add_request]; rewrite Hsc; cbn [map app throttled].
  - cbn. unfold after_retries. cbn. now rewrite app_nil_r.
  - cbn [Z.eqb Pos.eqb]. rewrite IH; [|cbn in Hfuel; lia|reflexivity].
    unfold after_retries. cbn. now rewrite <- !app_assoc.
Qed.

(** X3: answers with status 429 make the call sleep 60 seconds and ask
    again, as often as they come; the first answer with status 200 is
    returned, after one request per answer, all to the same URL, and the
    rest of the script is left unread. *)
Theorem retried_until_answered (u : url) (bodies : list text) (response_data : text)
    (sc : list exchange) (w : world) :
  script w = map throttled bodies ++ Response 200 (Some response_data) :: sc ->
  _get_data_from_http_request u w
  = (Ret response_data, after_retries u (length bodies) sc w).
Proof.
  intros Hsc. unfold _get_data_from_http_request, try_except.
  rewrite request_loop_retries with (response_data := response_data) (sc := sc)
    (bodies := bodies); [reflexivity| |exact Hsc].
  rewrite Hsc, length_app, length_map. lia.
Qed.

Lemma retried_until_answered_witness :
  let u := ResultUrl "secure.example" (JStr "r1") in
  let w := Sample.fresh [ throttled None; throttled (Some JNull);
                          ok (Sample.detail "img:1" []); Failure ] in
  script w
  = map throttled [None; Some JNull]
    ++ Response 200 (Some (Some (Sample.detail "img:1" []))) :: [Failure] /\
  _get_data_from_http_request u w
  = (Ret (Some (Sample.detail "img:1" [])),
     World [Failure] [u; u; u] [60; 60] None [] ∅).
Proof.
  cbv zeta. split; [reflexivity|].
  exact (retried_until_answered (ResultUrl "secure.example" (JStr "r1"))
           [None; Some JNull] (Some (Sample.detail "img:1" [])) [Failure]
           (Sample.fresh [ throttled None; throttled (Some JNull);
                           ok (Sample.detail "img:1" []); Failure ])
           eq_refl).
Defined.

(** X4: the call never lets an exception out: it returns the body, waits
    for an answer, or ends the process with [SystemExit()], whose code is
    [None]. *)
Theorem get_data_never_raises (u : url) (w : world) :
  match fst (_get_data_from_http_request u w) with
  | Ret _ | Blocked => True
  | SysExit code => code = None
  | Raise _ => False
  end.
Proof.
  destruct (_get_data_from_http_request u w) as [o w'] eqn:Hrun. cbn [fst].
  pose proof (network_only_get_data u w o w' Hrun) as [_ Hexit].
  destruct o as [d|e|c|]; auto.
  revert Hrun. unfold _get_data_from_http_request, try_except.
  destruct (request_loop _ u w) as [[d|e'|c|] w1];
    unfold bind, LOG, raise_SystemExit; discriminate.
Qed.

(** X18: the paginator has no page limit: on a script in which every
    answer names a successor it asks for page after page and does not
    return. *)
Theorem pagination_without_last_page (authority : string) (pages : list json)
    (w : world) :
  Forall has_next pages ->
  script w = map ok pages ->
  fst (_get_runtime_workload_scan_results_list authority w) = Blocked.
Proof.
  intros Hpages Hsc. unfold _get_runtime_workload_scan_results_list.
  apply (list_loop_no_last_page authority pages Hpages); [|exact Hsc].
  rewrite Hsc, length_map. lia.
Qed.

Lemma pagination_without_last_page_witness :
  let pages := [ Sample.more_page "c1" [Sample.scan_result "r1" 1];
                 Sample.more_page "c2" [Sample.scan_result "r2" 1] ] in
  Forall has_next pages /\
  script (Sample.fresh (map ok pages)) = map ok pages /\
  fst (_get_runtime_workload_scan_results_list "secure.example"
         (Sample.fresh (map ok pages))) = Blocked.
Proof.
  cbv zeta.
  assert (Hpages : Forall has_next
                     [ Sample.more_page "c1" [Sample.scan_result "r1" 1];
                       Sample.more_page "c2" [Sample.scan_result "r2" 1] ]).
  { repeat constructor; vm_compute; eauto. }
  split; [exact Hpages|]. split; [reflexivity|].
  exact (pagination_without_last_page "secure.example" _
           (Sample.fresh
              (map ok [ Sample.more_page "c1" [Sample.scan_result "r1" 1];
                        Sample.more_page "c2" [Sample.scan_result "r2" 1] ]))
           Hpages eq_refl).
Defined.

End EffectFacts.

(** ** The filter on any input: proofs *)

Module FilterMore.
Import Filter FilterFacts.

Lemma filter_loop_sublist data :
  forall acc out,
    filter_loop data acc = Ok out ->
    exists kept, out = acc ++ kept /\ sublist kept data /\ Forall passes kept.
Proof.
  induction data as [|result rest IH]; intros acc out; cbn [filter_loop].
  - intros [= <-]. exists []. rewrite app_nil_r. repeat split; constructor.
  - destruct (total_vulns result) as [total|e] eqn:Ht; cbn [rbind]; [|discriminate].
    destruct (0 <? total) eqn:Hpos; intros Hrun;
      apply IH in Hrun as (kept & -> & Hsub & Hkept).
    + exists (result :: kept). rewrite <- app_assoc. repeat split.
      * now constructor.
      * constructor; [|exact Hkept]. exists total. split; [exact Ht|].
        now apply Z.ltb_lt.
    + exists kept. repeat split; [now constructor | exact Hkept].
Qed.

(** X13: whatever the page holds, when the filter returns it returns a
    subsequence of the data it walked: results are neither invented nor
    repeated nor reordered, there are at most as many as in the data, and
    each has a total above zero. *)
Theorem filter_returns_subsequence (scan_results_list : json) (kept : list json) :
  _get_scan_results_list_with_vulnerabilties scan_results_list = Ok kept ->
  exists data,
    (let! d := py_getitem scan_results_list "data" in py_iter d) = Ok data /\
    sublist kept data /\
    (length kept <= length data)%nat /\
    Forall passes kept.
Proof.
  unfold _get_scan_results_list_with_vulnerabilties.
  destruct (py_getitem scan_results_list "data") as [d|]; [|discriminate].
  cbn [rbind]. destruct (py_iter d) as [data|]; [|discriminate]. cbn [rbind].
  intros Hrun. apply filter_loop_sublist in Hrun as (kept' & -> & Hsub & Hkept).
  exists data. repeat split; try assumption. now apply sublist_length.
Qed.

Lemma filter_loop_aborts pre bad post e :
  Forall is_scan_result pre ->
  total_vulns bad = Err e ->
  forall acc, filter_loop (pre ++ bad :: post) acc = Err e.
Proof.
  intros Hpre Hbad.
  induction Hpre as [|result pre [s Hs] _ IH]; intros acc; cbn [app filter_loop].
  - now rewrite Hbad.
  - rewrite (total_vulns_bucket_sum _ _ Hs). cbn [rbind].
    destruct (0 <? s); apply IH.
Qed.

Lemma total_vulns_absent result :
  absent "vulnTotalBySeverity" result ->
  total_vulns result = Err (KeyError (JStr "vulnTotalBySeverity")).
Proof.
  intros (members & -> & Hno). unfold total_vulns. cbn [py_getitem].
  now rewrite Hno.
Qed.

(** X14: one result without severity totals makes the filter raise
    [KeyError] for the missing key: the results it had kept so far are not
    returned, and the results after it are not looked at. *)
Theorem filter_raises_on_missing_totals (scan_results_list : json)
    (pre post : list json) (bad : json) :
  py_getitem scan_results_list "data" = Ok (JArr (pre ++ bad :: post)) ->
  Forall is_scan_result pre ->
  absent "vulnTotalBySeverity" bad ->
  _get_scan_results_list_with_vulnerabilties scan_results_list
  = Err (KeyError (JStr "vulnTotalBySeverity")).
Proof.
  intros Hdata Hpre Hbad. unfold _get_scan_results_list_with_vulnerabilties.
  rewrite Hdata. cbn [rbind py_iter].
  apply filter_loop_aborts; [exact Hpre | now apply total_vulns_absent].
Qed.

Lemma filter_returns_subsequence_witness :
  let data := [Sample.scan_result "r1" 0; Sample.scan_result "r2" 2;
               Sample.scan_result "r3" 0; Sample.scan_result "r4" 1] in
  let kept := [Sample.scan_result "r2" 2; Sample.scan_result "r4" 1] in
  _get_scan_results_list_with_vulnerabilties (Sample.last_page data) = Ok kept /\
  exists data',
    (let! d := py_getitem (Sample.last_page data) "data" in py_iter d) = Ok data' /\
    sublist kept data' /\
    (length kept <= length data')%nat /\
    Forall passes kept.
Proof.
  cbv zeta. split; [reflexivity|].
  exact (filter_returns_subsequence
           (Sample.last_page [ Sample.scan_result "r1" 0; Sample.scan_result "r2" 2;
                               Sample.scan_result "r3" 0; Sample.scan_result "r4" 1 ])
           [Sample.scan_result "r2" 2; Sample.scan_result "r4" 1] eq_refl).
Defined.

Lemma filter_raises_on_missing_totals_witness :
  let pre := [Sample.scan_result "r1" 1] in
  let post := [Sample.scan_result "r2" 1] in
  let page := Sample.last_page (pre ++ Sample.result_without_totals :: post) in
  py_getitem page "data" = Ok (JArr (pre ++ Sample.result_without_totals :: post)) /\
  Forall is_scan_result pre /\
  absent "vulnTotalBySeverity" Sample.result_without_totals /\
  _get_scan_results_list_with_vulnerabilties page
  = Err (KeyError (JStr "vulnTotalBySeverity")).
Proof.
  cbv zeta.
  assert (Hpre : Forall is_scan_result [Sample.scan_result "r1" 1]).
  { repeat constructor. vm_compute. eauto. }
  assert (Hbad : absent "vulnTotalBySeverity" Sample.result_without_totals).
  { eexists. split; reflexivity. }
  split; [reflexivity|]. split; [exact Hpre|]. split; [exact Hbad|].
  exact (filter_raises_on_missing_totals
           (Sample.last_page
              ([Sample.scan_result "r1" 1]
               ++ Sample.result_without_totals :: [Sample.scan_result "r2" 1]))
           [Sample.scan_result "r1" 1] [Sample.scan_result "r2" 1]
           Sample.result_without_totals eq_refl Hpre Hbad).
Defined.

End FilterMore.

(** ** Detail fetch: proofs *)

Module DetailFacts.
Import Http Detail HttpFacts EffectFacts.

Lemma key_eqb_refl k : hashable k = true -> key_eqb k k = true.
Proof.
  destruct k as [|b|n|s| |]; try discriminate; intros _; cbn.
  - reflexivity.
  - now destruct b.
  - apply Z.eqb_refl.
  - apply String.eqb_refl.
Qed.

Lemma dict_find_keys k d :
  bool_decide (is_Some (dict_find k d)) = existsb (key_eqb k) (map fst d).
Proof.
  induction d as [|[k' v] d IH]; cbn [dict_find map fst existsb].
  - apply bool_decide_eq_false. now intros [? [=]].
  - destruct (key_eqb k k'); [|exact IH].
    apply bool_decide_eq_true. eauto.
Qed.

(** An entry of a dict stays what it is when entries are appended. *)
Lemma dict_find_app k d more v :
  dict_find k d = Some v -> dict_find k (d ++ more) = Some v.
Proof.
  induction d as [|[k' v'] d IH]; cbn [dict_find app]; [discriminate|].
  destruct (key_eqb k k'); auto.
Qed.

(** A key that is not in the dict is found after its entry is appended. *)
Lemma dict_find_new k d v :
  hashable k = true -> dict_find k d = None -> dict_find k (d ++ [(k, v)]) = Some v.
Proof.
  intros Hk. induction d as [|[k' v'] d IH]; cbn [dict_find app].
  - now rewrite (key_eqb_refl _ Hk).
  - destruct (key_eqb k k'); [discriminate | exact IH].
Qed.

Lemma dict_contains_true k d :
  dict_contains k d = Ok true -> exists v, dict_getitem d k = Ok v.
Proof.
  unfold dict_contains, dict_getitem. destruct (hashable k); [|discriminate].
  intros [= Hin]. apply bool_decide_eq_true in Hin as [v ->]. now exists v.
Qed.

Lemma dict_contains_false k d :
  dict_contains k d = Ok false -> hashable k = true /\ dict_find k d = None.
Proof.
  unfold dict_contains. destruct (hashable k); [|discriminate].
  intros [= Hin]. apply bool_decide_eq_false in Hin. split; [reflexivity|].
  destruct (dict_find k d); [|reflexivity]. destruct Hin. eauto.
Qed.

Lemma covered_app images more result :
  covered images result -> covered (images ++ more) result.
Proof.
  intros (id & doc & Hid & Hdoc). exists id, doc. split; [exact Hid|].
  revert Hdoc. unfold dict_getitem. destruct (hashable id); [|discriminate].
  destruct (dict_find id images) as [v|] eqn:Hfind; [|discriminate].
  intros [= ->]. now rewrite (dict_find_app _ _ more _ Hfind).
Qed.

Lemma images_loop_covers authority results :
  forall images0 w images w',
    images_loop authority results images0 w = (Ret images, w') ->
    (exists more, images = images0 ++ more) /\ Forall (covered images) results.
Proof.
  induction results as [|result rest IH]; intros images0 w images w';
    cbn [images_loop].
  - intros [= <- <-]. split; [exists []; now rewrite app_nil_r | constructor].
  - rewrite bind_lift.
    destruct (py_getitem result "resultId") as [id|] eqn:Hid; [|discriminate].
    rewrite bind_lift.
    destruct (dict_contains id images0) as [[|]|] eqn:Hin; [| |discriminate].
    + intros Hrun. apply IH in Hrun as ((more & ->) & Hrest).
      split; [now exists more|]. constructor; [|exact Hrest].
      apply covered_app. apply dict_contains_true in Hin as [doc Hdoc].
      now exists id, doc.
    + unfold bind at 1.
      destruct (_get_data_from_http_request _ w) as [[response_data|e|c|] w1];
        try discriminate.
      rewrite bind_lift. destruct (json_loads response_data) as [doc|];
        [|discriminate].
      intros Hrun. apply IH in Hrun as ((more & ->) & Hrest).
      split; [exists ((id, doc) :: more); now rewrite <- app_assoc|].
      constructor; [|exact Hrest].
      apply covered_app. exists id, doc. split; [exact Hid|].
      apply dict_contains_false in Hin as [Hk Hnew].
      unfold dict_getitem. now rewrite Hk, (dict_find_new _ _ doc Hk Hnew).
Qed.

(** X2: when the detail fetch returns, the dict it returns has a document
    under the id of every result it was given: the flattener's lookup by
    result id cannot miss. *)
Theorem detail_covers_results (authority : string) (results : list json)
    (w w' : world) (images : pydict) :
  _get_images_with_vulns_scan_results authority results w = (Ret images, w') ->
  Forall (covered images) results.
Proof.
  unfold _get_images_with_vulns_scan_results. intros Hrun.
  now apply images_loop_covers in Hrun as [_ Hall].
Qed.

Lemma images_loop_distinct authority results ids :
  Forall2 has_id results ids ->
  Forall (fun id => hashable id = true) ids ->
  forall images docs rest w,
    length docs = length (distinct ids (map fst images)) ->
    script w = map ok docs ++ rest ->
    images_loop authority results images w
    = (Ret (images ++ combine (distinct ids (map fst images)) docs),
       after_requests (map (ResultUrl authority) (distinct ids (map fst images)))
         rest w).
Proof.
  induction 1 as [|result id results ids Hid _ IH]; intros Hhash images docs rest w Hlen Hsc;
    cbn [images_loop distinct].
  - cbn [distinct length] in Hlen. destruct docs; [|discriminate].
    cbn. rewrite app_nil_r. unfold after_requests. cbn in Hsc. rewrite app_nil_r.
    destruct w; cbn in *. now subst.
  - inversion Hhash as [|? ? Hk Hhash']; subst. clear Hhash. rename Hhash' into Hhash.
    rewrite bind_lift. unfold has_id in Hid. rewrite Hid. rewrite bind_lift.
    unfold dict_contains. rewrite Hk, dict_find_keys.
    cbn [distinct] in Hlen.
    destruct (existsb (key_eqb id) (map fst images)) eqn:Hseen.
    + now apply IH.
    + destruct docs as [|doc docs]; [discriminate|]. cbn [map app] in Hsc.
      unfold bind at 1. rewrite (get_data_ok _ doc _ w Hsc).
      rewrite bind_lift. cbn [json_loads].
      rewrite (IH Hhash (images ++ [(id, doc)]) docs rest).
      * rewrite map_app. cbn [map fst combine]. rewrite <- app_assoc.
        unfold after_requests. cbn. now rewrite <- app_assoc.
      * rewrite map_app. cbn [map fst]. cbn [length] in Hlen. lia.
      * reflexivity.
Qed.

(** X1: when every request is answered with status 200 and JSON, the
    detail fetch sends one request per distinct result id, in the order in
    which the ids first appear, and returns the answers under those ids; a
    repeated id costs no request. *)
Theorem detail_fetched_once (authority : string) (results ids docs : list json)
    (rest : list exchange) (w : world) :
  Forall2 has_id results ids ->
  Forall (fun id => hashable id = true) ids ->
  length docs = length (distinct ids []) ->
  script w = map ok docs ++ rest ->
  _get_images_with_vulns_scan_results authority results w
  = (Ret (combine (distinct ids []) docs),
     after_requests (map (ResultUrl authority) (distinct ids [])) rest w).
Proof.
  intros Hids Hhash Hlen Hsc. unfold _get_images_with_vulns_scan_results.
  now rewrite (images_loop_distinct authority results ids Hids Hhash [] docs rest w).
Qed.

Lemma detail_covers_results_witness :
  let w := Sample.fresh [ok Sample.detail1; throttled None; ok Sample.detail2] in
  let images := [(JStr "r1", Sample.detail1); (JStr "r2", Sample.detail2)] in
  let u1 := ResultUrl "secure.example" (JStr "r1") in
  let u2 := ResultUrl "secure.example" (JStr "r2") in
  _get_images_with_vulns_scan_results "secure.example" Sample.results3 w
  = (Ret images, World [] [u1; u2; u2] [60] None [] ∅) /\
  Forall (covered images) Sample.results3.
Proof.
  cbv zeta. split; [reflexivity|].
  exact (detail_covers_results "secure.example" Sample.results3
           (Sample.fresh [ok Sample.detail1; throttled None; ok Sample.detail2])
           (World [] [ ResultUrl "secure.example" (JStr "r1");
                       ResultUrl "secure.example" (JStr "r2");
                       ResultUrl "secure.example" (JStr "r2") ] [60] None [] ∅)
           [(JStr "r1", Sample.detail1); (JStr "r2", Sample.detail2)] eq_refl).
Defined.

Lemma detail_fetched_once_witness :
  let ids := [JStr "r1"; JStr "r2"; JStr "r1"] in
  let docs := [Sample.detail1; Sample.detail2] in
  let w := Sample.fresh (map ok docs ++ [Failure]) in
  Forall2 has_id Sample.results3 ids /\
  Forall (fun id => hashable id = true) ids /\
  distinct ids [] = [JStr "r1"; JStr "r2"] /\
  length docs = length (distinct ids []) /\
  script w = map ok docs ++ [Failure] /\
  _get_images_with_vulns_scan_results "secure.example" Sample.results3 w
  = (Ret (combine (distinct ids []) docs),
     after_requests (map (ResultUrl "secure.example") (distinct ids [])) [Failure] w).
Proof.
  cbv zeta.
  assert (Hids : Forall2 has_id Sample.results3 [JStr "r1"; JStr "r2"; JStr "r1"])
    by (repeat constructor).
  assert (Hhash : Forall (fun id => hashable id = true)
                    [JStr "r1"; JStr "r2"; JStr "r1"])
    by (repeat constructor).
  split; [exact Hids|]. split; [exact Hhash|]. do 3 (split; [reflexivity|]).
  exact (detail_fetched_once "secure.example" Sample.results3
           [JStr "r1"; JStr "r2"; JStr "r1"] [Sample.detail1; Sample.detail2]
           [Failure]
           (Sample.fresh (map ok [Sample.detail1; Sample.detail2] ++ [Failure]))
           Hids Hhash eq_refl eq_refl).
Defined.

End DetailFacts.

(** ** Rows of the report: proofs *)

Module RowFacts.
Import Flatten HttpFacts EffectFacts.

Lemma rmap_rbind {A B C : Type} (f : B -> C) (r : res A) (k : A -> res B) :
  rmap f (rbind r k) = rbind r (fun a => rmap f (k a)).
Proof. now destruct r. Qed.

Lemma rmap_rmap {A B C : Type} (f : A -> B) (g : B -> C) (r : res A) :
  rmap g (rmap f r) = rmap (fun a => g (f a)) r.
Proof. now destruct r. Qed.

Lemma rmap_ext {A B : Type} (f g : A -> B) (r : res A) :
  (forall a, f a = g a) -> rmap f r = rmap g r.
Proof. intros Hfg. destruct r; cbn; [now rewrite Hfg | reflexivity]. Qed.

Lemma rbind_ext {A B : Type} (r : res A) (k k' : A -> res B) :
  (forall a, k a = k' a) -> rbind r k = rbind r k'.
Proof. intros Hk. destruct r; cbn; [apply Hk | reflexivity]. Qed.

(** *** The accumulator only collects *)

Lemma vuln_loop_acc rl pl vulns :
  forall acc,
    vuln_loop rl pl vulns acc = rmap (app acc) (vuln_loop rl pl vulns []).
Proof.
  induction vulns as [|vuln rest IH]; intros acc; cbn [vuln_loop].
  - cbn. now rewrite app_nil_r.
  - rewrite rmap_rbind. apply rbind_ext. intros r.
    rewrite (IH (acc ++ [r])), (IH ([] ++ [r])), rmap_rmap.
    apply rmap_ext. intros rows. now rewrite <- app_assoc.
Qed.

Lemma package_body_acc rl package acc :
  package_body rl package acc = rmap (app acc) (package_body rl package []).
Proof.
  unfold package_body. rewrite rmap_rbind. apply rbind_ext. intros vulns.
  destruct (is_None vulns); [cbn; now rewrite app_nil_r|].
  repeat (rewrite rmap_rbind; apply rbind_ext; intros ?).
  apply vuln_loop_acc.
Qed.

Lemma package_loop_acc rl packages :
  forall acc,
    package_loop rl packages acc = rmap (app acc) (package_loop rl packages []).
Proof.
  induction packages as [|package rest IH]; intros acc; cbn [package_loop].
  - cbn. now rewrite app_nil_r.
  - rewrite (package_body_acc rl package acc).
    destruct (package_body rl package []) as [rows|e]; [|reflexivity].
    cbn [rmap rbind app].
    rewrite (IH (acc ++ rows)), (IH rows), rmap_rmap.
    apply rmap_ext. intros rows'. now rewrite <- app_assoc.
Qed.

Lemma omap_bind_lift {A B C : Type} (f : B -> C) (r : res A) (k : A -> M B) w :
  omap f (bind (lift r) k w) = bind (lift r) (fun a w => omap f (k a w)) w.
Proof. rewrite !bind_lift. now destruct r. Qed.

Lemma bind_lift_ext {A B : Type} (r : res A) (k k' : A -> M B) w :
  (forall a, k a w = k' a w) -> bind (lift r) k w = bind (lift r) k' w.
Proof. intros Hk. rewrite !bind_lift. destruct r; [apply Hk | reflexivity]. Qed.

Lemma result_body_acc images result acc w :
  result_body images result acc w
  = omap (app acc) (result_body images result [] w).
Proof.
  unfold result_body.
  repeat (rewrite omap_bind_lift; apply bind_lift_ext; intros ?).
  destruct (is_str _ _).
  - cbn. now rewrite app_nil_r.
  - repeat (rewrite omap_bind_lift; apply bind_lift_ext; intros ?).
    unfold lift. rewrite package_loop_acc.
    now destruct (package_loop _ _ []).
Qed.

Lemma omap_omap {A B C : Type} (f : A -> B) (g : B -> C) x :
  omap g (omap f x) = omap (fun a => g (f a)) x.
Proof. now destruct x as [[a|e|c|] w]. Qed.

Lemma omap_ext {A B : Type} (f g : A -> B) x :
  (forall a, f a = g a) -> omap f x = omap g x.
Proof.
  intros Hfg. destruct x as [[a|e|c|] w]; cbn; [now rewrite Hfg | | |]; reflexivity.
Qed.

Lemma result_loop_acc images results :
  forall acc w,
    result_loop images results acc w
    = omap (app acc) (result_loop images results [] w).
Proof.
  induction results as [|result rest IH]; intros acc w; cbn [result_loop].
  - cbn. now rewrite app_nil_r.
  - unfold bind. rewrite (result_body_acc images result acc w).
    destruct (result_body images result [] w) as [[rows|e|c|] w1]; try reflexivity.
    cbn [omap app].
    rewrite (IH (acc ++ rows)), (IH rows), omap_omap.
    apply omap_ext. intros rows'. now rewrite <- app_assoc.
Qed.

(** X5: flattening a list of results that is the concatenation of two is
    flattening the first, then the second, and putting the rows of the
    second after the rows of the first; an error in either is the error of
    the whole. *)
Theorem gather_app (results1 results2 : list json) (images : pydict) (w : world) :
  _gather_report_data (results1 ++ results2) images w
  = (rows1 <- _gather_report_data results1 images;;
     rows2 <- _gather_report_data results2 images;;
     ret (rows1 ++ rows2)) w.
Proof.
  unfold _gather_report_data, bind, ret.
  rewrite (FlattenFacts.result_loop_app images results1 results2 [] w).
  unfold bind.
  destruct (result_loop images results1 [] w) as [[rows1|e|c|] w1]; try reflexivity.
  rewrite (result_loop_acc images results2 rows1 w1).
  now destruct (result_loop images results2 [] w1) as [[rows2|e|c|] w2].
Qed.

(** *** Where a row comes from *)

(** The cells of a row, in the order in which the code appends them. *)
Lemma report_row_shape rl pl vuln r :
  report_row rl pl vuln = Ok r ->
  exists name severity version score vector disclosed solved fixed exploitable,
    r = [ name; severity; package_name pl; package_version pl; package_type pl;
          package_path pl; image_pull_string rl; base_os rl; version; score;
          vector; JStr "TODO"; disclosed; solved; fixed; exploitable;
          kubernetes_cluster_name rl; kubernetes_namespace_name rl;
          kubernetes_workload_name rl; kubernetes_workload_type rl;
          kubernetes_pod_container_name rl; image_id rl; JStr "TODO";
          package_suggested_fix pl; package_in_use pl; JStr "TODO" ].
Proof.
  unfold report_row.
  repeat match goal with
         | |- rbind ?x _ = Ok _ -> _ =>
             destruct x; cbn [rbind]; [|discriminate]
         end.
  intros [= <-]. repeat eexists.
Qed.

Lemma vuln_loop_rows rl pl vulns :
  forall acc out,
    vuln_loop rl pl vulns acc = Ok out ->
    exists rows,
      out = acc ++ rows /\
      Forall (fun r => exists vuln, report_row rl pl vuln = Ok r) rows.
Proof.
  induction vulns as [|vuln rest IH]; intros acc out; cbn [vuln_loop].
  - intros [= <-]. exists []. split; [now rewrite app_nil_r | constructor].
  - destruct (report_row rl pl vuln) as [r|] eqn:Hr; [|discriminate]. cbn [rbind].
    intros Hrun. apply IH in Hrun as (rows & -> & Hrows).
    exists (r :: rows). split; [now rewrite <- app_assoc|].
    constructor; [now exists vuln | exact Hrows].
Qed.

Lemma package_body_rows rl package acc out :
  package_body rl package acc = Ok out ->
  exists rows,
    out = acc ++ rows /\
    Forall (fun r => exists pl vuln, report_row rl pl vuln = Ok r) rows.
Proof.
  unfold package_body.
  destruct (py_get package "vulns" JNull) as [vulns|]; [|discriminate]. cbn [rbind].
  destruct (is_None vulns).
  { intros [= <-]. exists []. split; [now rewrite app_nil_r | constructor]. }
  repeat match goal with
         | |- rbind ?x _ = Ok _ -> _ =>
             destruct x; cbn [rbind]; [|discriminate]
         end.
  intros Hrun. apply vuln_loop_rows in Hrun as (rows & -> & Hrows).
  exists rows. split; [reflexivity|].
  eapply Forall_impl; [|exact Hrows]. intros r [vuln Hr]. eauto.
Qed.

Lemma package_loop_rows rl packages :
  forall acc out,
    package_loop rl packages acc = Ok out ->
    exists rows,
      out = acc ++ rows /\
      Forall (fun r => exists pl vuln, report_row rl pl vuln = Ok r) rows.
Proof.
  induction packages as [|package rest IH]; intros acc out; cbn [package_loop].
  - intros [= <-]. exists []. split; [now rewrite app_nil_r | constructor].
  - destruct (package_body rl package acc) as [mid|] eqn:Hbody; [|discriminate].
    cbn [rbind]. apply package_body_rows in Hbody as (rows1 & -> & Hrows1).
    intros Hrun. apply IH in Hrun as (rows2 & -> & Hrows2).
    exists (rows1 ++ rows2). split; [now rewrite <- app_assoc|].
    now apply Forall_app.
Qed.

Lemma is_str_false s v : is_str s v = false -> v <> JStr s.
Proof. intros Hno ->. cbn in Hno. now rewrite String.eqb_refl in Hno. Qed.

Lemma result_body_rows images result acc w out w' :
  result_body images result acc w = (Ret out, w') ->
  exists rows, out = acc ++ rows /\ Forall (row_from images result) rows.
Proof.
  unfold result_body.
  repeat match goal with
         | |- bind (lift ?x) _ _ = _ -> _ =>
             rewrite bind_lift; let H := fresh "Hread" in
             destruct x eqn:H; [|discriminate]
         end.
  match goal with |- context [is_str "" ?v] => destruct (is_str "" v) eqn:Hblank end.
  { unfold bind, LOG, ret. intros [= <- _]. exists [].
    split; [now rewrite app_nil_r | constructor]. }
  repeat match goal with
         | |- bind (lift ?x) _ _ = _ -> _ =>
             rewrite bind_lift; let H := fresh "Hread" in
             destruct x eqn:H; [|discriminate]
         end.
  unfold lift.
  match goal with
  | |- context [package_loop ?rl ?ps acc] =>
      destruct (package_loop rl ps acc) as [mid|] eqn:Hloop; [|discriminate]
  end.
  intros [= <- _]. apply package_loop_rows in Hloop as (rows & -> & Hrows).
  exists rows. split; [reflexivity|].
  eapply Forall_impl; [|exact Hrows]. intros r (pl & vuln & Hr).
  eexists _, pl, vuln. split; [|exact Hr].
  unfold reads_locals, has_id. cbn.
  apply is_str_false in Hblank. repeat split; assumption.
Qed.

Lemma result_loop_rows images results :
  forall acc w out w',
    result_loop images results acc w = (Ret out, w') ->
    exists rows,
      out = acc ++ rows /\
      Forall (fun r => exists result, In result results /\ row_from images result r)
        rows.
Proof.
  induction results as [|result rest IH]; intros acc w out w'; cbn [result_loop].
  - intros [= <- _]. exists []. split; [now rewrite app_nil_r | constructor].
  - unfold bind.
    destruct (result_body images result acc w) as [[mid|e|c|] w1] eqn:Hbody;
      try discriminate.
    apply result_body_rows in Hbody as (rows1 & -> & Hrows1).
    intros Hrun. apply IH in Hrun as (rows2 & -> & Hrows2).
    exists (rows1 ++ rows2). split; [now rewrite <- app_assoc|].
    apply Forall_app. split.
    + eapply Forall_impl; [|exact Hrows1]. intros r Hr. exists result.
      split; [now left | exact Hr].
    + eapply Forall_impl; [|exact Hrows2]. intros r (result' & Hin & Hr).
      exists result'. split; [now right | exact Hr].
Qed.

(** Every row the flattener returns was made for one of the results. *)
Lemma gather_rows results images w rows w' :
  _gather_report_data results images w = (Ret rows, w') ->
  Forall (fun r => exists result, In result results /\ row_from images result r) rows.
Proof.
  unfold _gather_report_data, bind, ret.
  destruct (result_loop images results [] w) as [[out|e|c|] w1] eqn:Hloop;
    try discriminate.
  intros [= <- _]. now apply result_loop_rows in Hloop as (rows' & -> & Hrows).
Qed.

(** X6: every row the flattener returns has as many cells as there are
    headers, 26, and the cells under "Vuln link", "K8S POD count" and "Risk
    accepted" hold the string TODO. *)
Theorem rows_match_headers (results : list json) (images : pydict) (w w' : world)
    (rows : list row) :
  _gather_report_data results images w = (Ret rows, w') ->
  Forall (fun r =>
            length r = length report_headers /\
            column "Vuln link" r = Some (JStr "TODO") /\
            column "K8S POD count" r = Some (JStr "TODO") /\
            column "Risk accepted" r = Some (JStr "TODO")) rows.
Proof.
  intros Hrun. apply gather_rows in Hrun.
  eapply Forall_impl; [|exact Hrun].
  intros r (result & _ & rl & pl & vuln & _ & Hr).
  apply report_row_shape in Hr
    as (name & sev & ver & sc & vec & d & s & f & e & ->).
  repeat split.
Qed.

(** X7: every row the flattener returns carries the Kubernetes scope of one
    of the results it was given.  The cluster, namespace and container names
    stand under their headers; the workload name stands under the header
    "K8S workload type" and the workload type under "K8S workload name". *)
Theorem rows_carry_scope (results : list json) (images : pydict) (w w' : world)
    (rows : list row) :
  _gather_report_data results images w = (Ret rows, w') ->
  Forall (fun r =>
            exists result,
              In result results /\
              scope_cell result "kubernetes.cluster.name" r "K8S cluster name" /\
              scope_cell result "kubernetes.namespace.name" r "K8S namespace name" /\
              scope_cell result "kubernetes.workload.name" r "K8S workload type" /\
              scope_cell result "kubernetes.workload.type" r "K8S workload name" /\
              scope_cell result "kubernetes.pod.container.name" r
                "K8S container name") rows.
Proof.
  intros Hrun. apply gather_rows in Hrun.
  eapply Forall_impl; [|exact Hrun].
  intros r (result & Hin & rl & pl & vuln & Hlocals & Hr).
  destruct Hlocals as (_ & Hc & Hn & Hp & Hwn & Hwt & _).
  apply report_row_shape in Hr
    as (name & sev & ver & sc & vec & d & s & f & e & ->).
  exists result. split; [exact Hin|].
  unfold scope_cell. repeat split; eexists; (split; [eassumption | reflexivity]).
Qed.

(** X8: every row the flattener returns carries the image of one of the
    results it was given: the pull string, the image id and the base OS
    stored for that result's id.  The pull string of a row is never the empty
    string. *)
Theorem rows_carry_image (results : list json) (images : pydict) (w w' : world)
    (rows : list row) :
  _gather_report_data results images w = (Ret rows, w') ->
  Forall (fun r =>
            column "Image" r <> Some (JStr "") /\
            exists result id md pull,
              In result results /\ has_id result id /\
              metadata_of images id = Ok md /\
              py_get md "pullString" JNull = Ok pull /\
              column "Image" r = Some pull /\
              image_cell images result "imageId" r "Image ID" /\
              image_cell images result "baseOs" r "OS Name") rows.
Proof.
  intros Hrun. apply gather_rows in Hrun.
  eapply Forall_impl; [|exact Hrun].
  intros r (result & Hin & rl & pl & vuln & Hlocals & Hr).
  destruct Hlocals as (Hid & _ & _ & _ & _ & _ & Hpull & Hblank & Himage & Hos).
  apply report_row_shape in Hr
    as (name & sev & ver & sc & vec & d & s & f & e & ->).
  split; [cbn; congruence|].
  destruct (metadata_of images (result_id rl)) as [md|] eqn:Hmd; [|discriminate].
  cbn [rbind] in Hpull, Himage, Hos.
  exists result, (result_id rl), md, (image_pull_string rl).
  repeat split; try assumption.
  - exists (result_id rl), md, (image_id rl). repeat split; assumption.
  - exists (result_id rl), md, (base_os rl). repeat split; assumption.
Qed.

(** *** What the flattener does to the world *)

Lemma only_warns_lift {A : Type} (r : res A) : only_warns (lift r).
Proof.
  intros w o w'. unfold lift. destruct r; intros [= <- <-]; (split; [|exact I]);
    exists []; (split; [destruct w; cbn; now rewrite app_nil_r | constructor]).
Qed.

Lemma only_warns_ret {A : Type} (a : A) : only_warns (ret a).
Proof.
  intros w o w' [= <- <-]. split; [|exact I].
  exists []. split; [destruct w; cbn; now rewrite app_nil_r | constructor].
Qed.

Lemma only_warns_warning m : only_warns (LOG WARNING m).
Proof.
  intros w o w' [= <- <-]. split; [|exact I].
  exists [(WARNING, m)]. split; [reflexivity | now constructor].
Qed.

Lemma only_warns_bind {A B : Type} (m : M A) (k : A -> M B) :
  only_warns m -> (forall a, only_warns (k a)) -> only_warns (bind m k).
Proof.
  intros Hm Hk w o w'. unfold bind.
  destruct (m w) as [[a|e|c|] w1] eqn:Hrun;
    apply Hm in Hrun as [(lines1 & -> & Hl1) Hout]; try contradiction.
  - intros Hrest. apply Hk in Hrest as [(lines2 & -> & Hl2) Hout'].
    split; [|exact Hout']. exists (lines1 ++ lines2). cbn.
    split; [now rewrite <- app_assoc | now apply Forall_app].
  - intros [= <- <-]. split; [|exact I]. now exists lines1.
Qed.

Lemma only_warns_result_loop images results :
  forall acc, only_warns (result_loop images results acc).
Proof.
  induction results as [|result rest IH]; intros acc; cbn [result_loop].
  - apply only_warns_ret.
  - apply only_warns_bind; [|intros rows; apply IH].
    unfold result_body.
    repeat (apply only_warns_bind; [apply only_warns_lift|]; intros ?).
    destruct (is_str _ _).
    + apply only_warns_bind; [apply only_warns_warning|]. intros _.
      apply only_warns_ret.
    + repeat (apply only_warns_bind; [apply only_warns_lift|]; intros ?).
      apply only_warns_lift.
Qed.

(** X9: the flattener works on what it was given: it sends no request,
    reads no answer, never sleeps, touches no file and does not end the
    process; it returns or raises, and all it leaves behind are warnings in
    the log. *)
Theorem gather_only_warns (results : list json) (images : pydict) :
  only_warns (_gather_report_data results images).
Proof.
  unfold _gather_report_data.
  apply only_warns_bind; [apply only_warns_result_loop|].
  intros rows. apply only_warns_ret.
Qed.

Lemma rows_match_headers_witness :
  _gather_report_data [Sample.scan_result "r1" 1] Sample.images1 (Sample.fresh [])
  = (Ret [Sample.row_of_vuln], Sample.fresh []) /\
  Forall (fun r =>
            length r = length report_headers /\
            column "Vuln link" r = Some (JStr "TODO") /\
            column "K8S POD count" r = Some (JStr "TODO") /\
            column "Risk accepted" r = Some (JStr "TODO")) [Sample.row_of_vuln].
Proof.
  split; [reflexivity|].
  exact (rows_match_headers [Sample.scan_result "r1" 1] Sample.images1
           (Sample.fresh []) (Sample.fresh []) [Sample.row_of_vuln] eq_refl).
Defined.

Lemma rows_carry_scope_witness :
  _gather_report_data [Sample.scan_result "r1" 1] Sample.images1 (Sample.fresh [])
  = (Ret [Sample.row_of_vuln], Sample.fresh []) /\
  column "K8S workload type" Sample.row_of_vuln = Some (JStr "web") /\
  column "K8S workload name" Sample.row_of_vuln = Some (JStr "deployment") /\
  Forall (fun r =>
            exists result,
              In result [Sample.scan_result "r1" 1] /\
              scope_cell result "kubernetes.cluster.name" r "K8S cluster name" /\
              scope_cell result "kubernetes.namespace.name" r "K8S namespace name" /\
              scope_cell result "kubernetes.workload.name" r "K8S workload type" /\
              scope_cell result "kubernetes.workload.type" r "K8S workload name" /\
              scope_cell result "kubernetes.pod.container.name" r
                "K8S container name") [Sample.row_of_vuln].
Proof.
  do 3 (split; [reflexivity|]).
  exact (rows_carry_scope [Sample.scan_result "r1" 1] Sample.images1
           (Sample.fresh []) (Sample.fresh []) [Sample.row_of_vuln] eq_refl).
Defined.

Lemma rows_carry_image_witness :
  _gather_report_data [Sample.scan_result "r1" 1] Sample.images1 (Sample.fresh [])
  = (Ret [Sample.row_of_vuln], Sample.fresh []) /\
  Forall (fun r =>
            column "Image" r <> Some (JStr "") /\
            exists result id md pull,
              In result [Sample.scan_result "r1" 1] /\ has_id result id /\
              metadata_of Sample.images1 id = Ok md /\
              py_get md "pullString" JNull = Ok pull /\
              column "Image" r = Some pull /\
              image_cell Sample.images1 result "imageId" r "Image ID" /\
              image_cell Sample.images1 result "baseOs" r "OS Name")
    [Sample.row_of_vuln].
Proof.
  split; [reflexivity|].
  exact (rows_carry_image [Sample.scan_result "r1" 1] Sample.images1
           (Sample.fresh []) (Sample.fresh []) [Sample.row_of_vuln] eq_refl).
Defined.

End RowFacts.

(** ** A whole run: proofs *)

Module RunFacts.
Import HttpFacts EffectFacts.

(** *** Rules *)

Lemma respects_bind {A B : Type} (R : world -> world -> Prop) (m : M A) (k : A -> M B) :
  (forall w1 w2 w3, R w1 w2 -> R w2 w3 -> R w1 w3) ->
  respects R m -> (forall a, respects R (k a)) -> respects R (bind m k).
Proof.
  intros Htrans Hm Hk w o w'. unfold bind.
  destruct (m w) as [[a|e|c|] w1] eqn:Hrun; apply Hm in Hrun.
  - intros Hrest. apply Hk in Hrest. eapply Htrans; eassumption.
  - now intros [= _ <-].
  - now intros [= _ <-].
  - now intros [= _ <-].
Qed.



Lemma sent_trans P w1 w2 w3 : sent P w1 w2 -> sent P w2 w3 -> sent P w1 w3.
Proof.
  intros (us1 & H1 & Hu1) (us2 & H2 & Hu2). exists (us1 ++ us2).
  split; [now rewrite H2, H1, <- app_assoc | now apply Forall_app].
Qed.

Lemma sent_nothing P w w' : requests w' = requests w -> sent P w w'.
Proof. intros Hreq. exists []. split; [now rewrite app_nil_r | constructor]. Qed.

Lemma network_only_same_files {A : Type} P (m : M A) :
  network_only P m -> respects same_files m.
Proof. intros Hm w o w' Hrun. now apply Hm in Hrun as [[Hf _ _ _] _]. Qed.

Lemma network_only_sent {A : Type} P (m : M A) :
  network_only P m -> respects (sent P) m.
Proof. intros Hm w o w' Hrun. now apply Hm in Hrun as [[_ _ Hr _] _]. Qed.

Lemma sent_nothing_weaken {A : Type} (P : url -> Prop) (m : M A) :
  respects (sent (fun _ => False)) m -> respects (sent P) m.
Proof.
  intros Hm w o w' Hrun. apply Hm in Hrun as (us & Hreq & Hus).
  exists us. split; [exact Hreq|]. eapply Forall_impl; [|exact Hus]. now intros ? [].
Qed.







Lemma try_except_cases {A : Type} (m : M A) (h : exn -> M A) w o w' :
  try_except m h w = (o, w') ->
  (exists e w1, m w = (Raise e, w1) /\ h e w1 = (o, w')) \/
  (m w = (o, w') /\ forall e, o <> Raise e).
Proof.
  unfold try_except. destruct (m w) as [[a|e|c|] w1] eqn:Hrun.
  - intros [= <- <-]. right. split; [reflexivity | discriminate].
  - intros Hh. left. now exists e, w1.
  - intros [= <- <-]. right. split; [reflexivity | discriminate].
  - intros [= <- <-]. right. split; [reflexivity | discriminate].
Qed.

(** *** The steps of [main] *)

(** A step that returns after changing the world by [f]. *)
Lemma respects_step {A : Type} (R : world -> world -> Prop) (a : world -> A)
    (f : world -> world) :
  (forall w, R w (f w)) -> respects R (fun w => (Ret (a w), f w)).
Proof. intros Hf w o w' [= <- <-]. apply Hf. Qed.

Lemma respects_lift {A : Type} (R : world -> world -> Prop) (r : res A) :
  (forall w, R w w) -> respects R (lift r).
Proof. intros Hrefl w o w'. unfold lift. destruct r; intros [= <- <-]; apply Hrefl. Qed.

Lemma respects_exit {A : Type} (R : world -> world -> Prop) code :
  (forall w, R w w) -> respects R (@raise_SystemExit A code).
Proof. intros Hrefl w o w' [= <- <-]. apply Hrefl. Qed.




Lemma open_w_cases path w o w' :
  open_w path w = (o, w') ->
  (o = Raise IsADirectoryError /\ w' = w /\ files w !! path = Some Directory) \/
  (o = Ret tt /\ w' = set_files (<[path := RegularFile []]> (files w)) w /\
   files w !! path <> Some Directory).
Proof.
  unfold open_w. destruct (files w !! path) as [[rows|]|] eqn:Hnode;
    intros [= <- <-]; [right|left|right]; repeat split; discriminate.
Qed.

(** Opening the file at [path] and writing [rows]: the file then holds
    exactly [rows]. *)
Lemma write_cases path rows w o w' :
  bind (open_w path) (fun _ => writerows path rows) w = (o, w') ->
  (o = Raise IsADirectoryError /\ w' = w /\ files w !! path = Some Directory) \/
  (o = Ret tt /\ files w' = <[path := RegularFile rows]> (files w) /\
   requests w' = requests w /\ files w !! path <> Some Directory).
Proof.
  unfold bind. destruct (open_w path w) as [[[]|e|c|] w1] eqn:Hopen;
    apply open_w_cases in Hopen as [(Ho & -> & Hdir)|(Ho & -> & Hdir)];
    try discriminate.
  - unfold writerows. cbn [files set_files]. rewrite lookup_insert_eq.
    intros [= <- <-]. right. cbn [files set_files requests].
    rewrite insert_insert_eq. repeat split. exact Hdir.
  - injection Ho as ->. intros [= <- <-]. now left.
Qed.


Ltac step_sent :=
  first
    [ apply respects_lift; intros w; now apply sent_nothing
    | apply respects_exit; intros w; now apply sent_nothing
    | apply sent_nothing_weaken; eapply network_only_sent; apply network_only_gather
    | eapply network_only_sent; apply network_only_paginate
    | eapply network_only_sent; apply network_only_images_loop
    | apply respects_step; intros w; apply sent_nothing;
      try destruct (enabled _); reflexivity ].



(** The handler of [main]: two log lines and [SystemExit(-1)]. *)
Lemma handler_run e w :
  (LOG CRITICAL (MsgException e);; LOG ERROR MsgFailed;; raise_SystemExit (Some (-1)))
    w
  = (@SysExit unit (Some (-1)),
     add_log (ERROR, MsgFailed) (add_log (CRITICAL, MsgException e) w)).
Proof. reflexivity. Qed.







Lemma phases_after {A B : Type} authority (m : M A) (k : A -> M B) :
  respects (sent (list_request_to authority)) m ->
  (forall a, respects (sent_in_phases authority) (k a)) ->
  respects (sent_in_phases authority) (bind m k).
Proof.
  intros Hm Hk w o w'. unfold bind.
  destruct (m w) as [[a|e|c|] w1] eqn:Hrun; apply Hm in Hrun as (ls1 & Hreq1 & Hls1).
  - intros Hrest. apply Hk in Hrest as (ls & ds & Hreq & Hls & Hds).
    exists (ls1 ++ ls), ds.
    split; [now rewrite Hreq, Hreq1, <- !app_assoc|].
    split; [now apply Forall_app | exact Hds].
  - intros [= _ <-]. exists ls1, []. rewrite app_nil_r. repeat split; auto.
  - intros [= _ <-]. exists ls1, []. rewrite app_nil_r. repeat split; auto.
  - intros [= _ <-]. exists ls1, []. rewrite app_nil_r. repeat split; auto.
Qed.

Lemma phases_detail {A : Type} authority (m : M A) :
  respects (sent (detail_request_to authority)) m ->
  respects (sent_in_phases authority) m.
Proof.
  intros Hm w o w' Hrun. apply Hm in Hrun as (ds & Hreq & Hds).
  exists [], ds. repeat split; auto.
Qed.

Lemma phases_try {A : Type} authority (m : M A) (h : exn -> M A) :
  respects (sent_in_phases authority) m ->
  (forall e w o w', h e w = (o, w') -> requests w' = requests w) ->
  respects (sent_in_phases authority) (try_except m h).
Proof.
  intros Hm Hh w o w' Hrun.
  apply try_except_cases in Hrun as [(e & w1 & Hbody & Hhandler)|[Hbody _]].
  - apply Hm in Hbody as (ls & ds & Hreq & Hls & Hds). apply Hh in Hhandler.
    exists ls, ds. rewrite Hhandler. auto.
  - eapply Hm, Hbody.
Qed.

Lemma main_sends_in_phases a :
  respects (sent_in_phases (secure_url_authority a)) (main a).
Proof.
  unfold main. cbv zeta. apply phases_try.
  2:{ intros e w o w'. rewrite handler_run. now intros [= _ <-]. }
  apply phases_after; [step_sent|]. intros is_file.
  apply phases_after.
  { destruct is_file; [|step_sent].
    apply respects_bind; [apply sent_trans|step_sent|]. intros _. step_sent. }
  intros _.
  do 3 (apply phases_after; [step_sent|]; intros ?).
  apply phases_detail.
  do 3 (apply respects_bind; [apply sent_trans|step_sent|]; intros ?).
  apply respects_bind; [apply sent_trans| |].
  2:{ intros _. apply respects_bind; [apply sent_trans|step_sent|].
      intros _. step_sent. }
  destruct (Nat.eqb _ 0); [step_sent|].
  do 8 (apply respects_bind; [apply sent_trans|step_sent|]; intros ?).
  intros w2 o2 w3 Hwrite.
  apply write_cases in Hwrite as [(_ & -> & _)|(_ & _ & Hreq & _)];
    now apply sent_nothing.
Qed.

(** X12: every request of a run goes to the authority given on the command
    line, and the requests to the list endpoint all come before the requests
    to the detail endpoint. *)
Theorem requests_in_phases (a : args) (w : world) :
  sent_in_phases (secure_url_authority a) w (snd (run a w)).
Proof.
  unfold run. destruct (main a w) as [o w'] eqn:Hmain.
  apply main_sends_in_phases in Hmain. now destruct o.
Qed.

(** *** A run that gets through *)

Lemma bind_run {A B : Type} (m : M A) (k : A -> M B) w a w1 :
  m w = (Ret a, w1) -> bind m k w = k a w1.
Proof. unfold bind. now intros ->. Qed.

Lemma bind_LOG {B : Type} l msg (k : unit -> M B) w :
  bind (LOG l msg) k w = k tt (if enabled l then add_log (l, msg) w else w).
Proof. reflexivity. Qed.

Lemma bind_assoc {A B C : Type} (m : M A) (k1 : A -> M B) (k2 : B -> M C) w :
  bind (bind m k1) k2 w = bind m (fun a => bind (k1 a) k2) w.
Proof. unfold bind. now destruct (m w) as [[a|e|c|] w1]. Qed.

(** Up to the flattener: what is left of [main] is to write the rows and
    to log the end. *)
Lemma main_reaches_write a w page w1 n kept images w2 rows w3 :
  isfile (csv_file_name a) w = (Ret false, w) ->
  Paginate._get_runtime_workload_scan_results_list (secure_url_authority a)
    (started a w) = (Ret page, w1) ->
  data_len page = Ok (S n) ->
  Filter._get_scan_results_list_with_vulnerabilties page = Ok kept ->
  Detail._get_images_with_vulns_scan_results (secure_url_authority a) kept
    (logged (progress (S n) kept) w1) = (Ret images, w2) ->
  Flatten._gather_report_data kept images w2 = (Ret rows, w3) ->
  main a w
  = try_except
      (fun _ =>
         (open_w (csv_file_name a);;
          writerows (csv_file_name a) rows;;
          LOG INFO MsgElapsed;;
          LOG INFO MsgComplete) w3)
      (fun e =>
         LOG CRITICAL (MsgException e);;
         LOG ERROR MsgFailed;;
         raise_SystemExit (Some (-1))) w.
Proof.
  intros Hfree Hlist Hlen Hfilter Hdetail Hgather.
  unfold main, try_except. cbv zeta.
  rewrite (bind_run _ _ _ _ _ Hfree).
  unfold bind at 1. cbn [ret].
  unfold bind at 1. cbn [set_header].
  rewrite bind_LOG. cbn [enabled]. fold (started a w).
  rewrite (bind_run _ _ _ _ _ Hlist).
  rewrite bind_lift, Hlen. rewrite bind_LOG. cbn [enabled].
  rewrite bind_lift. cbn [Nat.eqb].
  rewrite bind_assoc, bind_LOG. cbn [enabled].
  rewrite bind_assoc, bind_lift, Hfilter.
  rewrite bind_assoc, bind_LOG. cbn [enabled].
  rewrite bind_assoc, bind_lift.
  rewrite bind_assoc, bind_LOG. cbn [enabled].
  rewrite bind_assoc, bind_LOG. cbn [enabled].
  rewrite bind_assoc.
  unfold logged, progress in Hdetail. cbn [fold_left] in Hdetail.
  rewrite (bind_run _ _ _ _ _ Hdetail).
  rewrite bind_assoc, (bind_run _ _ _ _ _ Hgather).
  rewrite bind_assoc. reflexivity.
Qed.

Lemma chain_files a w page w1 n kept images w2 rows w3 :
  Paginate._get_runtime_workload_scan_results_list (secure_url_authority a)
    (started a w) = (Ret page, w1) ->
  Detail._get_images_with_vulns_scan_results (secure_url_authority a) kept
    (logged (progress (S n) kept) w1) = (Ret images, w2) ->
  Flatten._gather_report_data kept images w2 = (Ret rows, w3) ->
  files w3 = files w.
Proof.
  intros Hlist Hdetail Hgather.
  apply (network_only_same_files _ _ (network_only_paginate _)) in Hlist.
  apply (network_only_same_files _ _ (network_only_images_loop _ _ _)) in Hdetail.
  apply (network_only_same_files _ _ (network_only_gather _ _)) in Hgather.
  unfold same_files in *. rewrite Hgather, Hdetail. exact Hlist.
Qed.


(** X16: a directory at the output path passes the check at the start of
    [main]; it is met only when the file is opened, after all the requests
    have been made.  The run then ends with status 255 and the file system
    as it was. *)
Theorem directory_met_late (a : args) (w w1 w2 w3 : world) (page : json) (n : nat)
    (kept : list json) (images : pydict) (rows : list row) :
  files w !! csv_file_name a = Some Directory ->
  Paginate._get_runtime_workload_scan_results_list (secure_url_authority a)
    (started a w) = (Ret page, w1) ->
  data_len page = Ok (S n) ->
  Filter._get_scan_results_list_with_vulnerabilties page = Ok kept ->
  Detail._get_images_with_vulns_scan_results (secure_url_authority a) kept
    (logged (progress (S n) kept) w1) = (Ret images, w2) ->
  Flatten._gather_report_data kept images w2 = (Ret rows, w3) ->
  exists w',
    run a w = (Exited 255, w') /\
    files w' = files w /\
    requests w' = requests w3 /\
    log w' = log w3 ++ [ (CRITICAL, MsgException IsADirectoryError);
                         (ERROR, MsgFailed) ].
Proof.
  intros Hdir Hlist Hlen Hfilter Hdetail Hgather.
  assert (Hisfile : isfile (csv_file_name a) w = (Ret false, w))
    by (unfold isfile; now rewrite Hdir).
  pose proof (chain_files _ _ _ _ _ _ _ _ _ _ Hlist Hdetail Hgather) as Hfiles.
  unfold run.
  rewrite (main_reaches_write _ _ _ _ _ _ _ _ _ _
             Hisfile Hlist Hlen Hfilter Hdetail Hgather).
  unfold try_except, bind at 1, open_w. rewrite Hfiles, Hdir.
  rewrite handler_run. eexists. split; [reflexivity|]. cbn.
  repeat split; [exact Hfiles | now rewrite <- app_assoc].
Qed.

(** X17: a 200 answer of the list endpoint whose body is not JSON makes
    [json.loads] raise in the paginator; [main] catches it, and the run ends
    with status 255 after that one request, with the file system as it was. *)
Theorem body_not_json_fails (a : args) (w : world) (sc : list exchange) :
  isfile (csv_file_name a) w = (Ret false, w) ->
  script w = Response 200 (Some None) :: sc ->
  exists w',
    run a w = (Exited 255, w') /\
    files w' = files w /\
    script w' = sc /\
    requests w'
    = requests w ++ [RuntimeResultsUrl (secure_url_authority a) (JStr "")] /\
    log w' = log w ++ [ (INFO, MsgRetrievingList);
                        (CRITICAL, MsgException JSONDecodeError);
                        (ERROR, MsgFailed) ].
Proof.
  intros Hfree Hsc.
  assert (Hsc' : script (started a w) = Response 200 (Some None) :: sc) by exact Hsc.
  assert (Hlist :
            Paginate._get_runtime_workload_scan_results_list (secure_url_authority a)
              (started a w)
            = (Raise JSONDecodeError,
               after_requests [RuntimeResultsUrl (secure_url_authority a) (JStr "")]
                 sc (started a w))).
  { unfold Paginate._get_runtime_workload_scan_results_list.
    rewrite Hsc', list_loop_S.
    unfold Http._get_data_from_http_request, try_except.
    rewrite Hsc', request_loop_S. unfold Http.request_and_decode.
    cbn [script add_request]. rewrite Hsc'. reflexivity. }
  unfold run, main, try_except. cbv zeta.
  rewrite (bind_run _ _ _ _ _ Hfree).
  unfold bind at 1. cbn [ret].
  unfold bind at 1. cbn [set_header].
  rewrite bind_LOG. cbn [enabled]. fold (started a w).
  unfold bind at 1. rewrite Hlist. rewrite handler_run.
  eexists. split; [reflexivity|]. cbn.
  repeat split. now rewrite <- !app_assoc.
Qed.


Lemma directory_met_late_witness :
  let w := World Sample.script1 [] [] None [] {[ "out.csv" := Directory ]} in
  let page := Sample.last_page [Sample.scan_result "r1" 1] in
  let kept := [Sample.scan_result "r1" 1] in
  files w !! csv_file_name Sample.cli = Some Directory /\
  Paginate._get_runtime_workload_scan_results_list (secure_url_authority Sample.cli)
    (started Sample.cli w) = (Ret page, Sample.listed w) /\
  data_len page = Ok 1%nat /\
  Filter._get_scan_results_list_with_vulnerabilties page = Ok kept /\
  Detail._get_images_with_vulns_scan_results (secure_url_authority Sample.cli) kept
    (logged (progress 1 kept) (Sample.listed w))
  = (Ret Sample.images1, Sample.fetched w) /\
  Flatten._gather_report_data kept Sample.images1 (Sample.fetched w)
  = (Ret [Sample.row_of_vuln], Sample.fetched w) /\
  exists w',
    run Sample.cli w = (Exited 255, w') /\
    files w' = files w /\
    requests w' = requests (Sample.fetched w) /\
    log w' = log (Sample.fetched w) ++ [ (CRITICAL, MsgException IsADirectoryError);
                                         (ERROR, MsgFailed) ].
Proof.
  cbv zeta. do 6 (split; [reflexivity|]).
  exact (directory_met_late Sample.cli
           (World Sample.script1 [] [] None [] {[ "out.csv" := Directory ]})
           (Sample.listed (World Sample.script1 [] [] None [] {[ "out.csv" := Directory ]}))
           (Sample.fetched (World Sample.script1 [] [] None [] {[ "out.csv" := Directory ]}))
           (Sample.fetched (World Sample.script1 [] [] None [] {[ "out.csv" := Directory ]}))
           (Sample.last_page [Sample.scan_result "r1" 1]) 0
           [Sample.scan_result "r1" 1] Sample.images1 [Sample.row_of_vuln]
           eq_refl eq_refl eq_refl eq_refl eq_refl eq_refl).
Defined.

Lemma body_not_json_fails_witness :
  let w := Sample.fresh [Response 200 (Some None); ok (Sample.last_page [])] in
  isfile (csv_file_name Sample.cli) w = (Ret false, w) /\
  script w = Response 200 (Some None) :: [ok (Sample.last_page [])] /\
  exists w',
    run Sample.cli w = (Exited 255, w') /\
    files w' = files w /\
    script w' = [ok (Sample.last_page [])] /\
    requests w'
    = requests w ++ [RuntimeResultsUrl (secure_url_authority Sample.cli) (JStr "")] /\
    log w' = log w ++ [ (INFO, MsgRetrievingList);
                        (CRITICAL, MsgException JSONDecodeError);
                        (ERROR, MsgFailed) ].
Proof.
  cbv zeta. do 2 (split; [reflexivity|]).
  exact (body_not_json_fails Sample.cli
           (Sample.fresh [Response 200 (Some None); ok (Sample.last_page [])])
           [ok (Sample.last_page [])] eq_refl eq_refl).
Defined.

End RunFacts.
